(** * The analytics service of the LUGX platform: ingestion and dashboard

    A shallow embedding of
      - [src/services/analytics-service/clickhouse.js]  (the sink: [insertData],
        [executeQuery], the four dashboard queries), and
      - [src/services/analytics-service/app-clickhouse.js]  (the handlers of
        [POST /api/analytics/events] and [GET /api/analytics/dashboard], and the
        error-handling middleware),
    followed by the properties of the ingestion path and of the dashboard.

    JavaScript values are a JSON-shaped inductive type, exceptions are an
    explicit result type, promises are their settled outcome, and the
    ClickHouse server is a state that logs the insert calls it receives. *)

From Stdlib Require Import String Ascii List ZArith Lia Bool Arith PeanoNat.
Import ListNotations.
Open Scope string_scope.
Open Scope list_scope.

(** ** JavaScript values *)

(** The values that [JSON.parse] produces and [res.json] sends. Numbers are
    the integers: the handlers only test numbers for truthiness and count
    with array lengths; arithmetic on doubles is left to the [Runtime]. *)
#[warnings="-register-all"]
Inductive JsVal : Type :=
| JUndefined
| JNull
| JBool (b : bool)
| JNum (n : Z)
| JStr (s : string)
| JArr (items : list JsVal)
| JObj (fields : list (string * JsVal)).

(** What a [throw] carries. [error.message] is all the handlers read. *)
Inductive JsError : Type :=
| TypeError (message : string)
| StoreError (message : string).

Definition error_message (e : JsError) : string :=
  match e with
  | TypeError m => m
  | StoreError m => m
  end.

(** Synchronous code either returns or throws. *)
Inductive Result (A : Type) : Type :=
| Ok (a : A)
| Throw (e : JsError).
Arguments Ok {A} a.
Arguments Throw {A} e.

Definition bind {A B} (r : Result A) (k : A -> Result B) : Result B :=
  match r with
  | Ok a => k a
  | Throw e => Throw e
  end.

Notation "x <- r ;; k" := (bind r (fun x => k))
  (at level 61, r at next level, right associativity).

(** A promise, seen when it has settled. A rejection carries the moment it
    happened, which is what decides the reason [Promise.all] rejects with. *)
Inductive Settled (A : Type) : Type :=
| Fulfilled (a : A)
| Rejected (e : JsError) (after : nat).
Arguments Fulfilled {A} a.
Arguments Rejected {A} e after.

(** [Promise.all]: fulfills with all the values, or rejects with the reason
    of the promise that rejected first. *)
Fixpoint first_rejection {A} (ps : list (Settled A)) : option (JsError * nat) :=
  match ps with
  | [] => None
  | Fulfilled _ :: rest => first_rejection rest
  | Rejected e t :: rest =>
      match first_rejection rest with
      | Some (e', t') => if Nat.ltb t' t then Some (e', t') else Some (e, t)
      | None => Some (e, t)
      end
  end.

Fixpoint fulfilled_values {A} (ps : list (Settled A)) : list A :=
  match ps with
  | [] => []
  | Fulfilled a :: rest => a :: fulfilled_values rest
  | Rejected _ _ :: rest => fulfilled_values rest
  end.

Definition await_all {A} (ps : list (Settled A)) : Result (list A) :=
  match first_rejection ps with
  | Some (e, _) => Throw e
  | None => Ok (fulfilled_values ps)
  end.

(** Truthiness, and [a || b]. *)
Definition truthy (v : JsVal) : bool :=
  match v with
  | JUndefined | JNull => false
  | JBool b => b
  | JNum n => negb (n =? 0)%Z
  | JStr s => negb (s =? "")
  | JArr _ | JObj _ => true
  end.

Definition js_or (a b : JsVal) : JsVal := if truthy a then a else b.

(** Property lookup in an object literal. *)
Fixpoint lookup (key : string) (fields : list (string * JsVal)) : JsVal :=
  match fields with
  | [] => JUndefined
  | (k, v) :: rest => if k =? key then v else lookup key rest
  end.

(** [v.key] for a [v] known not to be [undefined] or [null], and a [key] that
    is not a built-in of a prototype (no name read by the handlers is):
    primitives and arrays have no such property. *)
Definition prop (v : JsVal) (key : string) : JsVal :=
  match v with
  | JObj fields => lookup key fields
  | _ => JUndefined
  end.

(** [v.key] in general: reading a property of [undefined] or [null] throws
    (the messages are those of V8). *)
Definition get_prop (v : JsVal) (key : string) : Result JsVal :=
  match v with
  | JUndefined =>
      Throw (TypeError ("Cannot read properties of undefined (reading '"
                          ++ key ++ "')")%string)
  | JNull =>
      Throw (TypeError ("Cannot read properties of null (reading '"
                          ++ key ++ "')")%string)
  | _ => Ok (prop v key)
  end.

Definition js_length (items : list JsVal) : JsVal := JNum (Z.of_nat (length items)).

(** ** The strings the handler rewrites *)

(** [s.includes(c)] for a one-character [c]. *)
Fixpoint str_includes (c : ascii) (s : string) : bool :=
  match s with
  | EmptyString => false
  | String a rest => if Ascii.eqb a c then true else str_includes c rest
  end.

(** [s.replace(c, r)] with a string pattern: the first occurrence only. *)
Fixpoint str_replace (c : ascii) (r : string) (s : string) : string :=
  match s with
  | EmptyString => EmptyString
  | String a rest => if Ascii.eqb a c then (r ++ rest)%string else String a (str_replace c r rest)
  end.

(** [s.split(c)[0]]: what comes before the first [c]. *)
Fixpoint str_split_head (c : ascii) (s : string) : string :=
  match s with
  | EmptyString => EmptyString
  | String a rest => if Ascii.eqb a c then EmptyString else String a (str_split_head c rest)
  end.

(** [arr.includes(s)] for a string [s]: some element is that very string. *)
Definition arr_includes (s : string) (items : list JsVal) : bool :=
  existsb (fun v => match v with JStr s' => s' =? s | _ => false end) items.

(** ** The runtime *)

(** What the program takes from Node and its packages: [JSON.stringify], the
    operators [+] and [/] on arbitrary values, the string a template literal
    makes of a value that is not a string, the clock, the [uuid] generator
    and [NODE_ENV]. Every result below holds for every runtime. *)
Record Runtime : Type := {
  JSON_stringify : JsVal -> string;
  js_add : JsVal -> JsVal -> JsVal;
  js_div : JsVal -> JsVal -> JsVal;
  js_to_string : JsVal -> string;
  now_iso : nat -> string;     (* the n-th [new Date().toISOString()] *)
  uuidv4 : nat -> string;      (* the n-th [uuidv4()] *)
  development : bool           (* [process.env.NODE_ENV === 'development'] *)
}.

(** ** The ClickHouse server *)

(** How the server answers an insert. *)
Inductive InsertOutcome : Type :=
| Accept
| Reject (message : string) (after : nat).

(** The server: the rows it holds, tagged by table, the insert calls it has
    received, how it will answer the coming insert calls (it accepts once the
    list is exhausted), and how it answers a query. Every table of
    [database/clickhouse/init/01-create-schema.sql] that the service writes
    to is [ENGINE = MergeTree()]: an accepted insert appends its rows. *)
Record ClickHouse : Type := {
  rows : list (string * JsVal);
  insert_calls : list (string * list JsVal);
  faults : list InsertOutcome;
  answer : string -> Settled (list JsVal)
}.

Definition stored (ch : ClickHouse) (table : string) : list JsVal :=
  map snd (filter (fun r => fst r =? table) (rows ch)).

(** The answer the server gives to the next insert call. *)
Definition next_outcome (ch : ClickHouse) : InsertOutcome := hd Accept (faults ch).

(** [clickhouse.insert({table, values, format: 'JSONEachRow'})]. *)
Definition clickhouse_insert (table : string) (values : list JsVal) (ch : ClickHouse)
  : Settled unit * ClickHouse :=
  match next_outcome ch with
  | Reject m t =>
      (Rejected (StoreError m) t,
       {| rows := rows ch;
          insert_calls := insert_calls ch ++ [(table, values)];
          faults := tl (faults ch);
          answer := answer ch |})
  | Accept =>
      (Fulfilled tt,
       {| rows := rows ch ++ map (pair table) values;
          insert_calls := insert_calls ch ++ [(table, values)];
          faults := tl (faults ch);
          answer := answer ch |})
  end.

(** ** clickhouse.js *)

(** [insertData(table, data)]. The [catch] logs and rethrows. *)
Definition insertData (table : string) (data : JsVal) (ch : ClickHouse)
  : Settled JsVal * ClickHouse :=
  match data with
  | JArr [] => (Fulfilled (JObj [("success", JBool true); ("inserted", JNum 0)]), ch)
  | _ =>
      let dataToInsert := match data with JArr items => items | _ => [data] end in
      match clickhouse_insert table dataToInsert ch with
      | (Fulfilled _, ch') =>
          (Fulfilled (JObj [("success", JBool true); ("inserted", js_length dataToInsert)]), ch')
      | (Rejected e t, ch') => (Rejected e t, ch')
      end
  end.

(** [executeQuery(query)]: the rows the server answers, or its error,
    logged and rethrown. *)
Definition executeQuery (ch : ClickHouse) (query : string) : Settled (list JsVal) :=
  answer ch query.

(** ** app-clickhouse.js: the event tracking endpoint *)

Record Response : Type := {
  status : nat;
  body : JsVal
}.

(** [res.json(b)] answers with the default status, 200. *)
Definition res_json (b : JsVal) : Response := {| status := 200; body := b |}.
Definition res_status_json (code : nat) (b : JsVal) : Response :=
  {| status := code; body := b |}.

(** The module-level [clickhouseConnected], set once at start-up, and the
    server behind the client. *)
Record Server : Type := {
  clickhouseConnected : bool;
  clickhouse : ClickHouse
}.

(** The four local arrays of the handler, with the number of times the clock
    and the uuid generator have been read so far. *)
Record Buffers : Type := {
  pageViews : list JsVal;
  gameInteractions : list JsVal;
  searchEvents : list JsVal;
  performanceMetrics : list JsVal;
  clock_reads : nat;
  uuid_calls : nat
}.

Definition empty_buffers : Buffers :=
  {| pageViews := []; gameInteractions := []; searchEvents := [];
     performanceMetrics := []; clock_reads := 0; uuid_calls := 0 |}.

(** The [if (timestamp.includes('T') && timestamp.includes('Z'))] block.
    A string is rewritten to the DateTime format; an array has [includes]
    but no [replace]; anything else has no [includes] to call. *)
Definition format_timestamp (timestamp : JsVal) : Result JsVal :=
  match timestamp with
  | JStr s =>
      if str_includes "T" s && str_includes "Z" s
      then Ok (JStr (str_split_head "." (str_replace "Z" "" (str_replace "T" " " s))))
      else Ok (JStr s)
  | JArr items =>
      if arr_includes "T" items && arr_includes "Z" items
      then Throw (TypeError "timestamp.replace is not a function")
      else Ok (JArr items)
  | _ => Throw (TypeError "timestamp.includes is not a function")
  end.

Definition page_view_row (baseEvent : list (string * JsVal)) (event : JsVal) : JsVal :=
  JObj (baseEvent ++
    [("page_url", prop event "page_url");
     ("page_title", prop event "page_title");
     ("page_category", prop event "page_category");
     ("time_on_page_seconds", js_or (prop event "time_on_page_seconds") (JNum 0));
     ("scroll_depth_percentage", js_or (prop event "scroll_depth_percentage") (JNum 0));
     ("exit_page", js_or (prop event "exit_page") (JBool false));
     ("bounce", js_or (prop event "bounce") (JBool false));
     ("previous_page", js_or (prop event "previous_page") JNull);
     ("referrer", js_or (prop event "referrer") (JStr ""))]).

Definition game_interaction_row (rt : Runtime) (baseEvent : list (string * JsVal))
    (event : JsVal) : JsVal :=
  JObj (baseEvent ++
    [("game_id", prop event "game_id");
     ("game_title", prop event "game_title");
     ("game_category", prop event "game_category");
     ("event_type", prop event "interaction_type");
     ("event_data", JStr (JSON_stringify rt (js_or (prop event "event_data") (JObj []))));
     ("page_context", js_or (prop event "page_context") (JStr ""))]).

Definition search_row (baseEvent : list (string * JsVal)) (event : JsVal) : JsVal :=
  JObj (baseEvent ++
    [("search_query", prop event "search_query");
     ("search_category", js_or (prop event "search_category") JNull);
     ("results_count", js_or (prop event "results_count") (JNum 0));
     ("clicked_result_position", js_or (prop event "clicked_result_position") JNull);
     ("clicked_game_id", js_or (prop event "clicked_game_id") JNull);
     ("no_results", js_or (prop event "no_results") (JBool false))]).

Definition performance_row (baseEvent : list (string * JsVal)) (event : JsVal) : JsVal :=
  JObj
    [("metric_id", lookup "event_id" baseEvent);
     ("service_name", prop event "service_name");
     ("metric_type", prop event "metric_type");
     ("metric_value", prop event "metric_value");
     ("unit", js_or (prop event "unit") (JStr ""));
     ("endpoint", js_or (prop event "endpoint") JNull);
     ("status_code", js_or (prop event "status_code") JNull);
     ("error_message", js_or (prop event "error_message") JNull);
     ("timestamp", lookup "timestamp" baseEvent)].

(** The event kinds the [switch] has a [case] for. *)
Inductive Kind : Type := PageView | GameInteraction | Search | Performance.

Definition kind_name (k : Kind) : string :=
  match k with
  | PageView => "page_view"
  | GameInteraction => "game_interaction"
  | Search => "search"
  | Performance => "performance"
  end.

(** [switch (event.event_type)]: the [case] that is taken, if any. The
    comparison is strict, and there is no [default]. *)
Definition switch_event_type (event : JsVal) : option Kind :=
  match prop event "event_type" with
  | JStr s =>
      if s =? "page_view" then Some PageView
      else if s =? "game_interaction" then Some GameInteraction
      else if s =? "search" then Some Search
      else if s =? "performance" then Some Performance
      else None
  | _ => None
  end.

(** The row a [case] builds. *)
Definition row_of (rt : Runtime) (k : Kind) (baseEvent : list (string * JsVal))
    (event : JsVal) : JsVal :=
  match k with
  | PageView => page_view_row baseEvent event
  | GameInteraction => game_interaction_row rt baseEvent event
  | Search => search_row baseEvent event
  | Performance => performance_row baseEvent event
  end.

(** [array.push(row)] on the array of a kind. *)
Definition push (k : Kind) (row : JsVal) (b : Buffers) : Buffers :=
  match k with
  | PageView =>
      {| pageViews := pageViews b ++ [row]; gameInteractions := gameInteractions b;
         searchEvents := searchEvents b; performanceMetrics := performanceMetrics b;
         clock_reads := clock_reads b; uuid_calls := uuid_calls b |}
  | GameInteraction =>
      {| pageViews := pageViews b; gameInteractions := gameInteractions b ++ [row];
         searchEvents := searchEvents b; performanceMetrics := performanceMetrics b;
         clock_reads := clock_reads b; uuid_calls := uuid_calls b |}
  | Search =>
      {| pageViews := pageViews b; gameInteractions := gameInteractions b;
         searchEvents := searchEvents b ++ [row]; performanceMetrics := performanceMetrics b;
         clock_reads := clock_reads b; uuid_calls := uuid_calls b |}
  | Performance =>
      {| pageViews := pageViews b; gameInteractions := gameInteractions b;
         searchEvents := searchEvents b; performanceMetrics := performanceMetrics b ++ [row];
         clock_reads := clock_reads b; uuid_calls := uuid_calls b |}
  end.

Definition batch (k : Kind) (b : Buffers) : list JsVal :=
  match k with
  | PageView => pageViews b
  | GameInteraction => gameInteractions b
  | Search => searchEvents b
  | Performance => performanceMetrics b
  end.

Definition tick_clock (b : Buffers) : Buffers :=
  {| pageViews := pageViews b; gameInteractions := gameInteractions b;
     searchEvents := searchEvents b; performanceMetrics := performanceMetrics b;
     clock_reads := S (clock_reads b); uuid_calls := uuid_calls b |}.

Definition tick_uuid (b : Buffers) : Buffers :=
  {| pageViews := pageViews b; gameInteractions := gameInteractions b;
     searchEvents := searchEvents b; performanceMetrics := performanceMetrics b;
     clock_reads := clock_reads b; uuid_calls := S (uuid_calls b) |}.

(** [event.timestamp || new Date().toISOString()]: the clock is read only
    when the left operand is falsy. *)
Definition read_timestamp (rt : Runtime) (b : Buffers) (event : JsVal)
  : Result (JsVal * Buffers) :=
  t <- get_prop event "timestamp" ;;
  if truthy t then Ok (t, b)
  else Ok (JStr (now_iso rt (clock_reads b)), tick_clock b).

(** [event.event_id || uuidv4()]. *)
Definition read_event_id (rt : Runtime) (b : Buffers) (event : JsVal) : JsVal * Buffers :=
  let id := prop event "event_id" in
  if truthy id then (id, b)
  else (JStr (uuidv4 rt (uuid_calls b)), tick_uuid b).

(** The body of [events.forEach(event => ...)]. *)
Definition process_event (rt : Runtime) (b : Buffers) (event : JsVal) : Result Buffers :=
  tb <- read_timestamp rt b event ;;
  timestamp <- format_timestamp (fst tb) ;;
  let (event_id, b') := read_event_id rt (snd tb) event in
  let baseEvent :=
    [("event_id", event_id);
     ("session_id", prop event "session_id");
     ("user_id", js_or (prop event "user_id") JNull);
     ("timestamp", timestamp)] in
  match switch_event_type event with
  | Some k => Ok (push k (row_of rt k baseEvent event) b')
  | None => Ok b'
  end.

(** [events.forEach]: the first exception ends the loop. *)
Fixpoint forEach (rt : Runtime) (b : Buffers) (events : list JsVal) : Result Buffers :=
  match events with
  | [] => Ok b
  | event :: rest =>
      b' <- process_event rt b event ;;
      forEach rt b' rest
  end.

Definition table_name (k : Kind) : string :=
  match k with
  | PageView => "page_views"
  | GameInteraction => "game_interactions"
  | Search => "search_events"
  | Performance => "performance_metrics"
  end.

(** [if (xs.length > 0) insertPromises.push(insertData(table, xs))].
    [insertData] runs up to its [await], so the server receives the calls in
    this order whatever their outcome. *)
Definition push_insert (k : Kind) (b : Buffers)
    (acc : list (Settled JsVal) * ClickHouse) : list (Settled JsVal) * ClickHouse :=
  match batch k b with
  | [] => acc
  | xs =>
      let (p, ch') := insertData (table_name k) (JArr xs) (snd acc) in
      (fst acc ++ [p], ch')
  end.

Definition insert_batches (b : Buffers) (ch : ClickHouse)
  : list (Settled JsVal) * ClickHouse :=
  push_insert Performance b
    (push_insert Search b
      (push_insert GameInteraction b
        (push_insert PageView b ([], ch)))).

Definition processed_counts (events : list JsVal) (b : Buffers) : JsVal :=
  JObj [("total", js_length events);
        ("page_views", js_length (pageViews b));
        ("game_interactions", js_length (gameInteractions b));
        ("search_events", js_length (searchEvents b));
        ("performance_metrics", js_length (performanceMetrics b))].

Definition events_processed (events : list JsVal) (b : Buffers) : Response :=
  res_json (JObj [("success", JBool true);
                  ("message", JStr "Events processed successfully");
                  ("processed", processed_counts events b)]).

Definition events_failed (e : JsError) : Response :=
  res_status_json 500
    (JObj [("success", JBool false);
           ("error", JStr "Failed to process analytics events");
           ("message", JStr (error_message e))]).

Definition events_required : Response :=
  res_status_json 400
    (JObj [("success", JBool false);
           ("error", JStr "Events array is required")]).

Definition events_queued (events : list JsVal) : Response :=
  res_json (JObj [("success", JBool true);
                  ("message", JStr "Events queued for processing");
                  ("processed", js_length events)]).

(** The handler of [POST /api/analytics/events], on the parsed [req.body]. *)
Definition post_events (rt : Runtime) (srv : Server) (req_body : JsVal)
  : Response * Server :=
  match get_prop req_body "events" with
  | Throw e => (events_failed e, srv)
  | Ok (JArr []) => (events_required, srv)
  | Ok (JArr events) =>
      if negb (clickhouseConnected srv) then (events_queued events, srv)
      else
        match forEach rt empty_buffers events with
        | Throw e => (events_failed e, srv)
        | Ok b =>
            let (promises, ch') := insert_batches b (clickhouse srv) in
            let srv' := {| clickhouseConnected := clickhouseConnected srv;
                           clickhouse := ch' |} in
            match await_all promises with
            | Ok _ => (events_processed events b, srv')
            | Throw e => (events_failed e, srv')
            end
        end
  | Ok _ => (events_required, srv)
  end.

(** What [express.json()] hands on: the parsed body, or the parse error it
    passes to [next]. *)
Inductive RequestBody : Type :=
| Unparsable (message : string)
| Parsed (v : JsVal).

(** The error-handling middleware, [app.use((err, req, res, next) => ...)]. *)
Definition error_middleware (rt : Runtime) (message : string) : Response :=
  res_status_json 500
    (JObj [("success", JBool false);
           ("error", JStr "Internal server error");
           ("message", JStr (if development rt then message
                             else "Something went wrong"))]).

(** A [POST /api/analytics/events] request through the application. *)
Definition app_post_events (rt : Runtime) (srv : Server) (req : RequestBody)
  : Response * Server :=
  match req with
  | Unparsable message => (error_middleware rt message, srv)
  | Parsed v => post_events rt srv v
  end.

(** ** clickhouse.js: the dashboard queries *)

(** A parameter or destructuring default, [x = d]: used when [x] is
    [undefined] only. *)
Definition default_to (v d : JsVal) : JsVal :=
  match v with
  | JUndefined => d
  | _ => v
  end.

(** [${v}] in a template literal. *)
Definition interpolate (rt : Runtime) (v : JsVal) : string :=
  match v with
  | JStr s => s
  | _ => js_to_string rt v
  end.

(** The query text of [getRealTimeMetrics], a template literal with [timeRange] spliced
    in as it is. *)
Definition getRealTimeMetrics_query (timeRange : string) : string :=
  ("
        SELECT 
            toStartOfMinute(timestamp) as minute,
            count() as page_views,
            uniq(session_id) as unique_sessions,
            uniq(user_id) as unique_users,
            avg(time_on_page_seconds) as avg_time_on_page
        FROM page_views 
        WHERE timestamp >= now() - INTERVAL " ++ timeRange ++ "
        GROUP BY minute
        ORDER BY minute DESC
        LIMIT 60
    ")%string.

Definition getRealTimeMetrics (rt : Runtime) (ch : ClickHouse) (timeRange : JsVal)
  : Settled (list JsVal) :=
  executeQuery ch (getRealTimeMetrics_query (interpolate rt (default_to timeRange (JStr "1 HOUR")))).

(** The query text of [getGamePopularity], a template literal with [timeRange] spliced
    in as it is. *)
Definition getGamePopularity_query (timeRange : string) : string :=
  ("
        SELECT 
            gi.game_title,
            gi.game_category,
            count() as total_interactions,
            uniq(gi.session_id) as unique_sessions,
            countIf(gi.event_type = 'view') as views,
            countIf(gi.event_type = 'add_to_cart') as cart_additions,
            countIf(gi.event_type = 'purchase') as purchases,
            round(countIf(gi.event_type = 'purchase') / countIf(gi.event_type = 'view') * 100, 2) as conversion_rate
        FROM game_interactions gi
        WHERE gi.timestamp >= now() - INTERVAL " ++ timeRange ++ "
        GROUP BY gi.game_title, gi.game_category
        ORDER BY total_interactions DESC
        LIMIT 20
    ")%string.

Definition getGamePopularity (rt : Runtime) (ch : ClickHouse) (timeRange : JsVal)
  : Settled (list JsVal) :=
  executeQuery ch (getGamePopularity_query (interpolate rt (default_to timeRange (JStr "7 DAY")))).

(** The query text of [getConversionFunnel], a template literal with [timeRange] spliced
    in as it is. *)
Definition getConversionFunnel_query (timeRange : string) : string :=
  ("
        SELECT 
            funnel_step,
            count() as step_count,
            uniq(session_id) as unique_sessions,
            sum(total_amount) as revenue
        FROM purchase_events
        WHERE purchase_timestamp >= now() - INTERVAL " ++ timeRange ++ "
        GROUP BY funnel_step
        ORDER BY 
            CASE funnel_step
                WHEN 'view' THEN 1
                WHEN 'add_to_cart' THEN 2
                WHEN 'checkout' THEN 3
                WHEN 'purchase' THEN 4
                ELSE 5
            END
    ")%string.

Definition getConversionFunnel (rt : Runtime) (ch : ClickHouse) (timeRange : JsVal)
  : Settled (list JsVal) :=
  executeQuery ch (getConversionFunnel_query (interpolate rt (default_to timeRange (JStr "7 DAY")))).

(** The query text of [getUserBehaviorMetrics], a template literal with [timeRange] spliced
    in as it is. *)
Definition getUserBehaviorMetrics_query (timeRange : string) : string :=
  ("
        SELECT 
            toStartOfDay(session_start_time) as date,
            count() as total_sessions,
            uniq(user_id) as unique_users,
            avg(session_duration_seconds) as avg_session_duration,
            avg(page_views) as avg_pages_per_session,
            countIf(page_views = 1) as bounce_sessions,
            round(countIf(page_views = 1) / count() * 100, 2) as bounce_rate
        FROM user_sessions
        WHERE session_start_time >= now() - INTERVAL " ++ timeRange ++ "
        GROUP BY date
        ORDER BY date DESC
    ")%string.

Definition getUserBehaviorMetrics (rt : Runtime) (ch : ClickHouse) (timeRange : JsVal)
  : Settled (list JsVal) :=
  executeQuery ch (getUserBehaviorMetrics_query (interpolate rt (default_to timeRange (JStr "7 DAY")))).

(** ** app-clickhouse.js: the dashboard endpoint *)

(** [rows.reduce((sum, row) => sum + row.key, acc)]. *)
Fixpoint reduce_sum (rt : Runtime) (key : string) (acc : JsVal) (rows : list JsVal)
  : Result JsVal :=
  match rows with
  | [] => Ok acc
  | row :: rest =>
      v <- get_prop row key ;;
      reduce_sum rt key (js_add rt acc v) rest
  end.

(** [rows.length > 0 ? rows.reduce(...) / rows.length : 0]. *)
Definition average (rt : Runtime) (key : string) (rows : list JsVal) : Result JsVal :=
  match rows with
  | [] => Ok (JNum 0)
  | _ =>
      total <- reduce_sum rt key (JNum 0) rows ;;
      Ok (js_div rt total (js_length rows))
  end.

Definition dashboard_unavailable : Response :=
  res_status_json 503
    (JObj [("success", JBool false);
           ("error", JStr "ClickHouse not available");
           ("message", JStr "Analytics database is not connected")]).

Definition dashboard_failed (e : JsError) : Response :=
  res_status_json 500
    (JObj [("success", JBool false);
           ("error", JStr "Failed to fetch dashboard analytics");
           ("message", JStr (error_message e))]).

(** The [summary] object of the dashboard. *)
Definition dashboard_summary (rt : Runtime) (realtimeMetrics userBehavior : list JsVal)
  : Result JsVal :=
  totalPageViews <- reduce_sum rt "page_views" (JNum 0) realtimeMetrics ;;
  totalSessions <- reduce_sum rt "unique_sessions" (JNum 0) realtimeMetrics ;;
  totalUsers <- reduce_sum rt "unique_users" (JNum 0) realtimeMetrics ;;
  avg_session_duration <- average rt "avg_session_duration" userBehavior ;;
  bounce_rate <- average rt "bounce_rate" userBehavior ;;
  Ok (JObj [("total_page_views", totalPageViews);
            ("total_sessions", totalSessions);
            ("total_users", totalUsers);
            ("avg_session_duration", avg_session_duration);
            ("bounce_rate", bounce_rate)]).

Definition dashboard_view (summary : JsVal)
    (realtimeMetrics gamePopularity conversionFunnel userBehavior : list JsVal)
    (timeRange : JsVal) : Response :=
  res_json
    (JObj [("success", JBool true);
           ("data",
            JObj [("summary", summary);
                  ("realtime_metrics", JArr (firstn 60 realtimeMetrics));
                  ("top_games", JArr (firstn 10 gamePopularity));
                  ("conversion_funnel", JArr conversionFunnel);
                  ("daily_metrics", JArr (firstn 7 userBehavior));
                  ("timeRange", timeRange)])]).

(** The handler of [GET /api/analytics/dashboard], on [req.query]. Only the
    first query takes the requested range; the other three are asked for
    seven days. *)
Definition get_dashboard (rt : Runtime) (srv : Server) (req_query : list (string * JsVal))
  : Response :=
  let timeRange := default_to (lookup "timeRange" req_query) (JStr "24 HOUR") in
  if negb (clickhouseConnected srv) then dashboard_unavailable
  else
    let ch := clickhouse srv in
    match await_all [getRealTimeMetrics rt ch timeRange;
                     getGamePopularity rt ch (JStr "7 DAY");
                     getConversionFunnel rt ch (JStr "7 DAY");
                     getUserBehaviorMetrics rt ch (JStr "7 DAY")] with
    | Throw e => dashboard_failed e
    | Ok [realtimeMetrics; gamePopularity; conversionFunnel; userBehavior] =>
        match dashboard_summary rt realtimeMetrics userBehavior with
        | Throw e => dashboard_failed e
        | Ok summary =>
            dashboard_view summary realtimeMetrics gamePopularity conversionFunnel
              userBehavior timeRange
        end
    | Ok _ => dashboard_failed (TypeError "undefined is not iterable")
    end.

(** ** Sample runtime, servers and requests *)

(** Integer arithmetic for [+] and [/] where both operands are numbers and
    the quotient is exact; enough for the concrete runs below. *)
Definition sample_runtime : Runtime :=
  {| JSON_stringify := fun _ => "{}";
     js_add := fun a b =>
       match a, b with
       | JNum x, JNum y => JNum (x + y)
       | _, _ => JUndefined
       end;
     js_div := fun a b =>
       match a, b with
       | JNum x, JNum y => JNum (x / y)
       | _, _ => JUndefined
       end;
     js_to_string := fun _ => "[object Object]";
     now_iso := fun _ => "2024-05-01T10:00:00.000Z";
     uuidv4 := fun n => match n with O => "uuid-0" | _ => "uuid-n" end;
     development := false |}.

(** An empty server that answers the coming insert calls as [fs] says and
    every query with no rows. *)
Definition empty_clickhouse (fs : list InsertOutcome) : ClickHouse :=
  {| rows := []; insert_calls := []; faults := fs;
     answer := fun _ => Fulfilled [] |}.

Definition connected_server (fs : list InsertOutcome) : Server :=
  {| clickhouseConnected := true; clickhouse := empty_clickhouse fs |}.

Definition disconnected_server : Server :=
  {| clickhouseConnected := false; clickhouse := empty_clickhouse [] |}.

Definition events_request (events : list JsVal) : JsVal :=
  JObj [("events", JArr events)].

Definition sample_event (event_type event_id : string) : JsVal :=
  JObj [("event_type", JStr event_type);
        ("event_id", JStr event_id);
        ("session_id", JStr "s-1");
        ("timestamp", JStr "2024-05-01T09:59:58.120Z")].

(** The rows that carry a given [event_id]. *)
Definition with_event_id (id : string) (records : list JsVal) : list JsVal :=
  filter (fun r => match prop r "event_id" with
                   | JStr s => s =? id
                   | _ => false
                   end) records.

(** Equality of kinds, and whether the [switch] sends an event to a kind. *)
Definition Kind_eqb (k1 k2 : Kind) : bool :=
  match k1, k2 with
  | PageView, PageView | GameInteraction, GameInteraction
  | Search, Search | Performance, Performance => true
  | _, _ => false
  end.

Definition has_kind (k : Kind) (event : JsVal) : bool :=
  match switch_event_type event with
  | Some k' => Kind_eqb k k'
  | None => false
  end.

Definition all_kinds : list Kind := [PageView; GameInteraction; Search; Performance].

(** The indices, counted from [i], of the events of a list that the
    [switch] sends to kind [k]. *)
Fixpoint positions (k : Kind) (i : nat) (events : list JsVal) : list nat :=
  match events with
  | [] => []
  | event :: rest =>
      if has_kind k event then i :: positions k (S i) rest
      else positions k (S i) rest
  end.

(** [row] is the row that the [case] of kind [k] builds for the event at
    index [i] of [events]. *)
Definition placed (rt : Runtime) (k : Kind) (events : list JsVal) (i : nat)
    (row : JsVal) : Prop :=
  exists event baseEvent,
    nth_error events i = Some event
    /\ has_kind k event = true
    /\ row = row_of rt k baseEvent event.

(** The insert calls that hand the non-empty batches to the sink. *)
Definition batch_calls (b : Buffers) : list (string * list JsVal) :=
  map (fun k => (table_name k, batch k b))
      (filter (fun k => negb (Nat.eqb (length (batch k b)) 0)) all_kinds).

(** An event whose [event_type] is none of the four names of the [switch]:
    absent, not a string, or another string. *)
Definition unrecognized (event : JsVal) : Prop :=
  forall k, prop event "event_type" <> JStr (kind_name k).

(** The [events] value that passes the guard of the endpoint. *)
Definition nonempty_array (v : JsVal) : bool :=
  match v with
  | JArr (_ :: _) => true
  | _ => false
  end.

(** The response to events that all went to no array. *)
Definition none_processed (events : list JsVal) : Response :=
  res_json (JObj [("success", JBool true);
                  ("message", JStr "Events processed successfully");
                  ("processed",
                   JObj [("total", js_length events);
                         ("page_views", JNum 0);
                         ("game_interactions", JNum 0);
                         ("search_events", JNum 0);
                         ("performance_metrics", JNum 0)])]).

(** The promises of the insert calls: a rejected one carries an error of
    the server, taken from the answers the server had in store. *)
Definition from_faults (fs : list InsertOutcome) (acc : list (Settled JsVal) * ClickHouse)
  : Prop :=
  incl (faults (snd acc)) fs
  /\ forall e t, In (Rejected e t) (fst acc) ->
       exists m, e = StoreError m /\ In (Reject m t) fs.

(** The summary of a dashboard with nothing to sum. *)
Definition zero_summary : JsVal :=
  JObj [("total_page_views", JNum 0);
        ("total_sessions", JNum 0);
        ("total_users", JNum 0);
        ("avg_session_duration", JNum 0);
        ("bounce_rate", JNum 0)].

(** The range that the dashboard handler works with. *)
Definition requested_range (req_query : list (string * JsVal)) : JsVal :=
  default_to (lookup "timeRange" req_query) (JStr "24 HOUR").

(** A connected server with no page view in store, that cannot parse the
    interval [last tuesday]. *)
Definition strict_server : Server :=
  {| clickhouseConnected := true;
     clickhouse :=
       {| rows := []; insert_calls := []; faults := [];
          answer := fun q =>
            if q =? getRealTimeMetrics_query "last tuesday"
            then Rejected (StoreError "Syntax error: failed at position 312 (tuesday)") 1
            else Fulfilled [] |} |}.

(** A connected server with no event of any kind in the last hour, and one
    day of sessions earlier in the week. *)
Definition quiet_hour_server : Server :=
  {| clickhouseConnected := true;
     clickhouse :=
       {| rows := []; insert_calls := []; faults := [];
          answer := fun q =>
            if q =? getUserBehaviorMetrics_query "7 DAY"
            then Fulfilled [JObj [("date", JStr "2024-04-28 00:00:00");
                                  ("total_sessions", JNum 4);
                                  ("avg_session_duration", JNum 120);
                                  ("bounce_rate", JNum 50)]]
            else Fulfilled [] |} |}.

(** ** clickhouse.js: the connection test and the batch insert *)

(** [testConnection()]: whether the server answers [SELECT 1 as test]. The
    [catch] turns every failure into [false]. *)
Definition testConnection (ch : ClickHouse) : bool :=
  match answer ch "SELECT 1 as test" with
  | Fulfilled _ => true
  | Rejected _ _ => false
  end.

Definition batch_result (totalInserted batchCount : nat) : JsVal :=
  JObj [("success", JBool true);
        ("totalInserted", JNum (Z.of_nat totalInserted));
        ("batches", JNum (Z.of_nat batchCount))].

(** The [for] loop of [batchInsert], for a [batchSize] that is a natural
    number. [fuel] bounds the number of turns; [None] says that the loop is
    still running when the fuel is spent. The pause between two batches
    does not show. *)
Fixpoint batchInsert_loop (fuel : nat) (table : string) (dataArray : list JsVal)
    (batchSize i totalInserted batchCount : nat) (ch : ClickHouse)
  : option (Settled JsVal * ClickHouse) :=
  if Nat.ltb i (length dataArray) then
    match fuel with
    | O => None
    | S fuel' =>
        let batch := firstn batchSize (skipn i dataArray) in
        match insertData table (JArr batch) ch with
        | (Fulfilled _, ch') =>
            batchInsert_loop fuel' table dataArray batchSize (i + batchSize)
              (totalInserted + length batch) (S batchCount) ch'
        | (Rejected e t, ch') => Some (Rejected e t, ch')
        end
    end
  else Some (Fulfilled (batch_result totalInserted batchCount), ch).

(** [batchInsert(table, dataArray, batchSize)]. *)
Definition batchInsert (fuel : nat) (table : string) (dataArray : JsVal)
    (batchSize : nat) (ch : ClickHouse) : option (Settled JsVal * ClickHouse) :=
  match dataArray with
  | JArr (x :: xs) => batchInsert_loop fuel table (x :: xs) batchSize 0 0 0 ch
  | _ => Some (Fulfilled (batch_result 0 0), ch)
  end.

(** The slices that [batchInsert] cuts, as a list of lists. *)
Fixpoint chunks (fuel size : nat) (l : list JsVal) : list (list JsVal) :=
  match fuel with
  | O => []
  | S fuel' =>
      match l with
      | [] => []
      | _ => firstn size l :: chunks fuel' size (skipn size l)
      end
  end.

(** ** app-clickhouse.js: start-up, health and custom reports *)

(** [initializeClickHouse()]: the only assignment to [clickhouseConnected]. *)
Definition initializeClickHouse (ch : ClickHouse) : Server :=
  {| clickhouseConnected := testConnection ch; clickhouse := ch |}.

(** The server after a sequence of [POST /api/analytics/events] requests. *)
Fixpoint serve_events (rt : Runtime) (srv : Server) (reqs : list JsVal) : Server :=
  match reqs with
  | [] => srv
  | req_body :: rest => serve_events rt (snd (post_events rt srv req_body)) rest
  end.

(** [xs.length > 0 ? xs[0].key : 0]. *)
Definition first_or_zero (xs : list JsVal) (key : string) : Result JsVal :=
  match xs with
  | [] => Ok (JNum 0)
  | x :: _ => get_prop x key
  end.

(** The handler of [GET /health]; [uptime] is [process.uptime()]. *)
Definition get_health (rt : Runtime) (uptime : JsVal) (srv : Server) : Response :=
  let healthStatus :=
    [("status", JStr "healthy");
     ("service", JStr "analytics-service");
     ("timestamp", JStr (now_iso rt 0));
     ("uptime", uptime);
     ("version", JStr "2.0.0");
     ("clickhouse", JStr (if clickhouseConnected srv then "connected"
                          else "disconnected"))] in
  let failed (e : JsError) :=
    healthStatus ++
    [("clickhouse_status",
      JObj [("connection_status", JStr "error");
            ("error", JStr (error_message e))])] in
  res_status_json 200
    (JObj
       (if clickhouseConnected srv then
          match getRealTimeMetrics rt (clickhouse srv) (JStr "1 HOUR") with
          | Rejected e _ => failed e
          | Fulfilled realtimeMetrics =>
              match
                (last_hour_page_views <- first_or_zero realtimeMetrics "page_views" ;;
                 unique_sessions <- first_or_zero realtimeMetrics "unique_sessions" ;;
                 Ok (JObj [("last_hour_page_views", last_hour_page_views);
                           ("unique_sessions", unique_sessions);
                           ("data_points", js_length realtimeMetrics)]))
              with
              | Ok recent_activity => healthStatus ++ [("recent_activity", recent_activity)]
              | Throw e => failed e
              end
          end
        else healthStatus)).

Definition reports_failed (message : string) : Response :=
  res_status_json 500
    (JObj [("success", JBool false);
           ("error", JStr "Failed to generate custom report");
           ("message", JStr message)]).

(** The handler of [POST /api/analytics/reports]. The file does not import
    [executeQuery], so that reading the name throws a [ReferenceError], which
    the [catch] answers. *)
Definition post_reports (srv : Server) (req_body : JsVal) : Response :=
  match get_prop req_body "query" with
  | Throw e => reports_failed (error_message e)
  | Ok query =>
      if negb (truthy query) then
        res_status_json 400
          (JObj [("success", JBool false); ("error", JStr "Query is required")])
      else if negb (clickhouseConnected srv) then
        res_status_json 503
          (JObj [("success", JBool false); ("error", JStr "ClickHouse not available")])
      else reports_failed "executeQuery is not defined"
  end.

(** ** Notions for the properties of the event loop *)

(** Whether a turn of the loop throws on this event: the event is
    [undefined] or [null], or its [timestamp] is truthy and is neither a
    string nor an array without ['T'] or without ['Z']. *)
Definition breaks_loop (event : JsVal) : bool :=
  match event with
  | JUndefined | JNull => true
  | _ =>
      let t := prop event "timestamp" in
      truthy t && match format_timestamp t with
                  | Throw _ => true
                  | Ok _ => false
                  end
  end.

(** A string without the character [c]. *)
Definition lacks (c : ascii) (s : string) : Prop := str_includes c s = false.

(** The number of events for which the loop reads the uuid generator, and
    the clock. *)
Definition without_event_id (events : list JsVal) : nat :=
  length (filter (fun e => negb (truthy (prop e "event_id"))) events).

Definition without_timestamp (events : list JsVal) : nat :=
  length (filter (fun e => negb (truthy (prop e "timestamp"))) events).

(** The events that the [switch] sends nowhere. *)
Definition skipped (events : list JsVal) : list JsVal :=
  filter (fun e => match switch_event_type e with None => true | Some _ => false end)
         events.

(** The rank of the insert call of kind [k] among the calls of a request:
    the number of non-empty arrays before its own. *)
Definition call_rank (k : Kind) (b : Buffers) : nat :=
  let nonempty k' := negb (Nat.eqb (length (batch k' b)) 0) in
  length (filter nonempty
            match k with
            | PageView => []
            | GameInteraction => [PageView]
            | Search => [PageView; GameInteraction]
            | Performance => [PageView; GameInteraction; Search]
            end).

(** An empty server that answers queries as [a] says. *)
Definition querying_clickhouse (a : string -> Settled (list JsVal)) : ClickHouse :=
  {| rows := []; insert_calls := []; faults := []; answer := a |}.

(** The field of a row that carries the identifier of the event. *)
Definition id_field (k : Kind) : string :=
  match k with
  | Performance => "metric_id"
  | _ => "event_id"
  end.

(** [row] stands for the event at index [i] of [events], of kind [k], and
    carries the identifier that the client gave, if it gave one, and, but
    for a performance metric, the session of the event. *)
Definition carries (k : Kind) (events : list JsVal) (i : nat) (row : JsVal) : Prop :=
  exists event,
    nth_error events i = Some event
    /\ has_kind k event = true
    /\ (truthy (prop event "event_id") = true ->
        prop row (id_field k) = prop event "event_id")
    /\ (k <> Performance -> prop row "session_id" = prop event "session_id")
    /\ (k = Performance -> prop row "session_id" = JUndefined).

(** * Properties of the sink *)

Lemma clickhouse_insert_calls table values ch :
  insert_calls (snd (clickhouse_insert table values ch))
  = insert_calls ch ++ [(table, values)].
Proof.
  unfold clickhouse_insert. destruct (next_outcome ch); reflexivity.
Qed.

Lemma clickhouse_insert_faults table values ch :
  faults (snd (clickhouse_insert table values ch)) = tl (faults ch).
Proof.
  unfold clickhouse_insert. destruct (next_outcome ch); reflexivity.
Qed.

Lemma stored_app ch table extra f a l :
  stored {| rows := rows ch ++ extra; insert_calls := l; faults := f; answer := a |} table
  = stored ch table ++ map snd (filter (fun r => fst r =? table) extra).
Proof.
  unfold stored. cbn [rows]. now rewrite filter_app, map_app.
Qed.

Lemma stored_own_rows table (values : list JsVal) :
  map snd (filter (fun r => fst r =? table) (map (pair table) values)) = values.
Proof.
  induction values as [|v values IH]; cbn; [reflexivity|].
  rewrite String.eqb_refl. cbn. now rewrite IH.
Qed.

(** The non-empty case of [insertData], one equation per answer of the server. *)
Lemma insertData_accept table x xs ch :
  next_outcome ch = Accept ->
  insertData table (JArr (x :: xs)) ch
  = (Fulfilled (JObj [("success", JBool true); ("inserted", js_length (x :: xs))]),
     {| rows := rows ch ++ map (pair table) (x :: xs);
        insert_calls := insert_calls ch ++ [(table, x :: xs)];
        faults := tl (faults ch);
        answer := answer ch |}).
Proof.
  intros H. unfold insertData, clickhouse_insert. now rewrite H.
Qed.

Lemma insertData_reject table x xs ch m t :
  next_outcome ch = Reject m t ->
  insertData table (JArr (x :: xs)) ch
  = (Rejected (StoreError m) t,
     {| rows := rows ch;
        insert_calls := insert_calls ch ++ [(table, x :: xs)];
        faults := tl (faults ch);
        answer := answer ch |}).
Proof.
  intros H. unfold insertData, clickhouse_insert. now rewrite H.
Qed.

Lemma insertData_calls table x xs ch :
  insert_calls (snd (insertData table (JArr (x :: xs)) ch))
  = insert_calls ch ++ [(table, x :: xs)].
Proof.
  destruct (next_outcome ch) as [|m t] eqn:E.
  - now rewrite (insertData_accept _ _ _ _ E).
  - now rewrite (insertData_reject _ _ _ _ _ _ E).
Qed.

(** C10. [insertData] with an empty array returns [{success: true,
    inserted: 0}] and leaves the server untouched: no insert call is issued.
    With a non-empty array of [n] records it issues one insert call carrying
    them, and reports [inserted: n] when the server accepts and throws the
    server's error when it does not. *)
Theorem insertData_contract (table : string) (ch : ClickHouse) :
  insertData table (JArr []) ch
  = (Fulfilled (JObj [("success", JBool true); ("inserted", JNum 0)]), ch)
  /\ (forall x xs,
        insert_calls (snd (insertData table (JArr (x :: xs)) ch))
        = insert_calls ch ++ [(table, x :: xs)])
  /\ (forall x xs,
        next_outcome ch = Accept ->
        fst (insertData table (JArr (x :: xs)) ch)
        = Fulfilled (JObj [("success", JBool true);
                           ("inserted", JNum (Z.of_nat (length (x :: xs))))]))
  /\ (forall x xs m t,
        next_outcome ch = Reject m t ->
        fst (insertData table (JArr (x :: xs)) ch) = Rejected (StoreError m) t).
Proof.
  split; [reflexivity|]. split; [|split].
  - intros x xs. apply insertData_calls.
  - intros x xs E. now rewrite (insertData_accept _ _ _ _ E).
  - intros x xs m t E. now rewrite (insertData_reject _ _ _ _ _ _ E).
Qed.

Lemma insertData_contract_witness :
  fst (insertData "search_events"
         (JArr [sample_event "search" "e-1"; sample_event "search" "e-2"])
         (empty_clickhouse []))
  = Fulfilled (JObj [("success", JBool true); ("inserted", JNum 2)])
  /\ fst (insertData "search_events" (JArr [sample_event "search" "e-1"])
            (empty_clickhouse [Reject "ETIMEDOUT" 3]))
     = Rejected (StoreError "ETIMEDOUT") 3.
Proof.
  split.
  - exact (proj1 (proj2 (proj2 (insertData_contract "search_events" (empty_clickhouse []))))
             (sample_event "search" "e-1") [sample_event "search" "e-2"] eq_refl).
  - exact (proj2 (proj2 (proj2 (insertData_contract "search_events"
                                  (empty_clickhouse [Reject "ETIMEDOUT" 3]))))
             (sample_event "search" "e-1") [] "ETIMEDOUT" 3 eq_refl).
Defined.

Lemma insertData_stored table items ch :
  next_outcome ch = Accept ->
  stored (snd (insertData table (JArr items) ch)) table = stored ch table ++ items.
Proof.
  intros H. destruct items as [|x xs].
  - cbn. now rewrite app_nil_r.
  - rewrite (insertData_accept _ _ _ _ H). cbn [snd].
    now rewrite stored_app, stored_own_rows.
Qed.

Lemma with_event_id_app id xs ys :
  with_event_id id (xs ++ ys) = with_event_id id xs ++ with_event_id id ys.
Proof. apply filter_app. Qed.

(** C5, as the code has it. [insertData] hands the records to the server as
    they are and an accepted insert appends them: after two accepted
    deliveries the table holds what it held, then the first records, then
    the second, and the number of rows with a given [event_id] is the sum of
    the three. Nothing is deduplicated on [event_id]. *)
Theorem insertData_appends (table id : string) (items1 items2 : list JsVal)
    (ch : ClickHouse) :
  let ch1 := snd (insertData table (JArr items1) ch) in
  let ch2 := snd (insertData table (JArr items2) ch1) in
  next_outcome ch = Accept ->
  next_outcome ch1 = Accept ->
  stored ch2 table = stored ch table ++ items1 ++ items2
  /\ length (with_event_id id (stored ch2 table))
     = length (with_event_id id (stored ch table))
       + length (with_event_id id items1) + length (with_event_id id items2).
Proof.
  intros ch1 ch2 H1 H2.
  assert (E : stored ch2 table = stored ch table ++ items1 ++ items2).
  { unfold ch2. rewrite (insertData_stored _ _ _ H2).
    unfold ch1. rewrite (insertData_stored _ _ _ H1). now rewrite app_assoc. }
  split; [exact E|].
  rewrite E, !with_event_id_app, !length_app. lia.
Qed.

Lemma insertData_appends_witness :
  stored (snd (insertData "page_views" (JArr [sample_event "page_view" "e-42"])
                (snd (insertData "page_views" (JArr [sample_event "page_view" "e-42"])
                        (empty_clickhouse []))))) "page_views"
  = [sample_event "page_view" "e-42"; sample_event "page_view" "e-42"].
Proof.
  exact (proj1 (insertData_appends "page_views" "e-42"
                  [sample_event "page_view" "e-42"] [sample_event "page_view" "e-42"]
                  (empty_clickhouse []) eq_refl eq_refl)).
Defined.

(** C5, refuted as stated: the same event, [event_id] ["e-42"], delivered in
    two requests to a server that accepts both, is stored twice. *)
Lemma redelivery_stored_twice :
  let req := events_request [sample_event "page_view" "e-42"] in
  let srv1 := snd (post_events sample_runtime (connected_server []) req) in
  let srv2 := snd (post_events sample_runtime srv1 req) in
  length (with_event_id "e-42" (stored (clickhouse srv2) "page_views")) = 2
  /\ length (with_event_id "e-42" (stored (clickhouse srv2) "page_views")) <> 1.
Proof. vm_compute. split; [reflexivity | discriminate]. Qed.

(** C6, as the code has it. On a store failure [insertData] has made one
    insert call and makes no other: it throws the server's error, the
    server holds the rows it held, and one answer of the server has been
    consumed. There is no retry and no dead-letter sink. *)
Theorem insertData_single_attempt (table : string) (x : JsVal) (xs : list JsVal)
    (ch : ClickHouse) (m : string) (t : nat) :
  next_outcome ch = Reject m t ->
  let r := insertData table (JArr (x :: xs)) ch in
  fst r = Rejected (StoreError m) t
  /\ rows (snd r) = rows ch
  /\ insert_calls (snd r) = insert_calls ch ++ [(table, x :: xs)]
  /\ faults (snd r) = tl (faults ch).
Proof.
  intros H r. unfold r. rewrite (insertData_reject _ _ _ _ _ _ H). cbn.
  repeat split.
Qed.

Lemma insertData_single_attempt_witness :
  let r := insertData "page_views" (JArr [sample_event "page_view" "e-1"])
             (empty_clickhouse [Reject "ECONNRESET" 1; Accept]) in
  fst r = Rejected (StoreError "ECONNRESET") 1
  /\ rows (snd r) = []
  /\ insert_calls (snd r) = [("page_views", [sample_event "page_view" "e-1"])]
  /\ faults (snd r) = [Accept].
Proof.
  exact (insertData_single_attempt "page_views" (sample_event "page_view" "e-1") []
           (empty_clickhouse [Reject "ECONNRESET" 1; Accept]) "ECONNRESET" 1 eq_refl).
Defined.

(** C6, refuted as stated: the server fails three times and would then
    succeed. [insertData] stops at the first failure: it throws, nothing is
    stored, one call was made, and two failures and the success are still
    to come. Through the endpoint the caller gets a 500 and the batch is
    gone. *)
Lemma transient_fault_not_retried :
  let fs := [Reject "ECONNRESET" 1; Reject "ECONNRESET" 2; Reject "ETIMEDOUT" 4; Accept] in
  let r := insertData "page_views" (JArr [sample_event "page_view" "e-1"])
             (empty_clickhouse fs) in
  let h := post_events sample_runtime (connected_server fs)
             (events_request [sample_event "page_view" "e-1"]) in
  fst r = Rejected (StoreError "ECONNRESET") 1
  /\ stored (snd r) "page_views" = []
  /\ length (insert_calls (snd r)) = 1
  /\ faults (snd r) = [Reject "ECONNRESET" 2; Reject "ETIMEDOUT" 4; Accept]
  /\ status (fst h) = 500
  /\ rows (clickhouse (snd h)) = []
  /\ length (insert_calls (clickhouse (snd h))) = 1.
Proof. vm_compute. repeat split. Qed.

(** * Properties of the event loop *)

Lemma Kind_eqb_eq k1 k2 : Kind_eqb k1 k2 = true <-> k1 = k2.
Proof. destruct k1, k2; cbn; split; congruence. Qed.

Lemma has_kind_unique k1 k2 event :
  has_kind k1 event = true -> has_kind k2 event = true -> k1 = k2.
Proof.
  unfold has_kind. destruct (switch_event_type event) as [k|]; [|discriminate].
  intros H1 H2. apply Kind_eqb_eq in H1, H2. congruence.
Qed.

Lemma batch_push k k' row b :
  batch k (push k' row b) = batch k b ++ (if Kind_eqb k k' then [row] else []).
Proof. destruct k, k'; cbn; now rewrite ?app_nil_r. Qed.

Lemma batch_read_event_id rt k b event :
  batch k (snd (read_event_id rt b event)) = batch k b.
Proof.
  unfold read_event_id. destruct (truthy _); destruct k; reflexivity.
Qed.

Lemma batch_read_timestamp rt k b event t b' :
  read_timestamp rt b event = Ok (t, b') -> batch k b' = batch k b.
Proof.
  unfold read_timestamp. destruct (get_prop event "timestamp") as [v|]; cbn; [|discriminate].
  destruct (truthy v); intros [= _ <-]; destruct k; reflexivity.
Qed.

(** One turn of the loop adds one row to the array of the event's kind, and
    nothing to the others; an event of no kind adds nothing at all. *)
Lemma process_event_batch rt b event b' :
  process_event rt b event = Ok b' ->
  exists baseEvent, forall k,
    batch k b' = batch k b
                 ++ (if has_kind k event then [row_of rt k baseEvent event] else []).
Proof.
  unfold process_event.
  destruct (read_timestamp rt b event) as [[t b1]|] eqn:Et; cbn [bind]; [|discriminate].
  cbn [fst snd].
  destruct (format_timestamp t) as [ts|]; cbn [bind]; [|discriminate].
  pose proof (fun k => batch_read_event_id rt k b1 event) as Eid.
  destruct (read_event_id rt b1 event) as [id b2]. cbn [snd] in Eid.
  intros H. eexists. intros k. unfold has_kind.
  destruct (switch_event_type event) as [k'|]; injection H as <-.
  - rewrite batch_push, Eid, (batch_read_timestamp _ _ _ _ _ _ Et).
    destruct (Kind_eqb k k') eqn:E; [|reflexivity].
    apply Kind_eqb_eq in E. now subst k'.
  - now rewrite Eid, (batch_read_timestamp _ _ _ _ _ _ Et), app_nil_r.
Qed.

Lemma forEach_cons rt b event rest b' :
  forEach rt b (event :: rest) = Ok b' ->
  exists b1, process_event rt b event = Ok b1 /\ forEach rt b1 rest = Ok b'.
Proof.
  cbn [forEach]. destruct (process_event rt b event) as [b1|]; cbn [bind]; [|discriminate].
  intros H. now exists b1.
Qed.

(** The rows of a kind, in the order of the events they come from. *)
Lemma forEach_batch rt k events :
  forall pre b0 b,
    forEach rt b0 events = Ok b ->
    exists added,
      batch k b = batch k b0 ++ added
      /\ Forall2 (placed rt k (pre ++ events)) (positions k (length pre) events) added.
Proof.
  induction events as [|event rest IH]; intros pre b0 b H.
  - injection H as <-. exists []. split; [now rewrite app_nil_r | constructor].
  - apply forEach_cons in H as (b1 & H1 & H2).
    destruct (process_event_batch _ _ _ _ H1) as (baseEvent & Hb).
    destruct (IH (pre ++ [event]) b1 b H2) as (added & Ha & Hf).
    rewrite <- app_assoc, length_app, Nat.add_1_r in Hf. cbn [app length] in Hf.
    rewrite Ha, Hb, <- app_assoc. eexists. split; [reflexivity|].
    cbn [positions]. destruct (has_kind k event) eqn:Ek; cbn [app]; [|exact Hf].
    constructor; [|exact Hf].
    exists event, baseEvent. repeat split; [|exact Ek].
    now rewrite nth_error_app2, Nat.sub_diag by lia.
Qed.

Lemma positions_bound k events :
  forall i j, In j (positions k i events) -> i <= j.
Proof.
  induction events as [|event rest IH]; intros i j; cbn; [tauto|].
  destruct (has_kind k event); cbn; intros H.
  - destruct H as [<-|H]; [lia|]. apply IH in H. lia.
  - apply IH in H. lia.
Qed.

Lemma positions_kind k events :
  forall i j, In j (positions k i events) ->
    exists event, nth_error events (j - i) = Some event /\ has_kind k event = true.
Proof.
  induction events as [|event rest IH]; intros i j; cbn [positions]; [intros []|].
  assert (Hrest : In j (positions k (S i) rest) ->
                  exists ev, nth_error (event :: rest) (j - i) = Some ev
                             /\ has_kind k ev = true).
  { intros H. pose proof (positions_bound _ _ _ _ H) as Hb.
    destruct (IH _ _ H) as (ev & Hn & Hk). exists ev. split; [|exact Hk].
    replace (j - i) with (S (j - S i)) by lia. exact Hn. }
  destruct (has_kind k event) eqn:Ek; [|exact Hrest].
  intros [<-|H]; [|now apply Hrest].
  exists event. now rewrite Nat.sub_diag.
Qed.

Lemma positions_NoDup k events : forall i, NoDup (positions k i events).
Proof.
  induction events as [|event rest IH]; intros i; cbn; [constructor|].
  destruct (has_kind k event); [|apply IH].
  constructor; [|apply IH].
  intros H. apply positions_bound in H. lia.
Qed.

Lemma positions_disjoint k1 k2 events i j :
  In j (positions k1 i events) -> In j (positions k2 i events) -> k1 = k2.
Proof.
  intros H1 H2.
  destruct (positions_kind _ _ _ _ H1) as (e1 & Hn1 & Hk1).
  destruct (positions_kind _ _ _ _ H2) as (e2 & Hn2 & Hk2).
  rewrite Hn1 in Hn2. injection Hn2 as <-.
  exact (has_kind_unique _ _ _ Hk1 Hk2).
Qed.

Lemma positions_total events :
  forall i,
    length (positions PageView i events) + length (positions GameInteraction i events)
    + length (positions Search i events) + length (positions Performance i events)
    <= length events.
Proof.
  induction events as [|event rest IH]; intros i; cbn [positions length]; [lia|].
  specialize (IH (S i)). unfold has_kind.
  destruct (switch_event_type event) as [[]|]; cbn [Kind_eqb length]; lia.
Qed.

Lemma push_insert_calls k b acc :
  insert_calls (snd (push_insert k b acc))
  = insert_calls (snd acc)
    ++ (if negb (Nat.eqb (length (batch k b)) 0) then [(table_name k, batch k b)] else []).
Proof.
  unfold push_insert. destruct (batch k b) as [|x xs] eqn:E.
  - cbn. now rewrite app_nil_r.
  - pose proof (insertData_calls (table_name k) x xs (snd acc)) as H.
    destruct (insertData (table_name k) (JArr (x :: xs)) (snd acc)) as [p ch'].
    cbn [snd] in *. exact H.
Qed.

Lemma insert_batches_calls b ch :
  insert_calls (snd (insert_batches b ch)) = insert_calls ch ++ batch_calls b.
Proof.
  unfold insert_batches, batch_calls, all_kinds.
  rewrite !push_insert_calls. cbn [snd filter].
  destruct (negb (length (batch PageView b) =? 0)%nat),
           (negb (length (batch GameInteraction b) =? 0)%nat),
           (negb (length (batch Search b) =? 0)%nat),
           (negb (length (batch Performance b) =? 0)%nat);
    cbn [map app]; rewrite <- ?app_assoc, ?app_nil_r; reflexivity.
Qed.

(** The handler, once the guards are passed and the loop has run. *)
Lemma post_events_run rt srv req_body event rest b :
  get_prop req_body "events" = Ok (JArr (event :: rest)) ->
  clickhouseConnected srv = true ->
  forEach rt empty_buffers (event :: rest) = Ok b ->
  post_events rt srv req_body
  = (match await_all (fst (insert_batches b (clickhouse srv))) with
     | Ok _ => events_processed (event :: rest) b
     | Throw e => events_failed e
     end,
     {| clickhouseConnected := clickhouseConnected srv;
        clickhouse := snd (insert_batches b (clickhouse srv)) |}).
Proof.
  intros Hb Hc Hf. unfold post_events. rewrite Hb, Hc, Hf. cbn [negb].
  destruct (insert_batches b (clickhouse srv)) as [promises ch']. cbn [fst snd].
  now destruct (await_all promises).
Qed.

Lemma post_events_loop_throws rt srv req_body event rest e :
  get_prop req_body "events" = Ok (JArr (event :: rest)) ->
  clickhouseConnected srv = true ->
  forEach rt empty_buffers (event :: rest) = Throw e ->
  post_events rt srv req_body = (events_failed e, srv).
Proof.
  intros Hb Hc Hf. unfold post_events. now rewrite Hb, Hc, Hf.
Qed.

Lemma forEach_from_empty rt k events b :
  forEach rt empty_buffers events = Ok b ->
  Forall2 (placed rt k events) (positions k 0 events) (batch k b).
Proof.
  intros Hf. destruct (forEach_batch rt k events [] empty_buffers b Hf) as (added & Ha & H).
  cbn [app length] in H. replace (batch k b) with added; [exact H|].
  rewrite Ha. now destruct k.
Qed.

(** C9. When the loop has run over the submitted events, the array of each
    kind holds, in order, one row for each event that the [switch] sends to
    that kind, identified by its index; no index occurs twice for a kind, no
    index occurs for two kinds, the arrays together have no more rows than
    there are events, and the handler hands each non-empty array to the sink
    in one insert call of its own. So no event is in two batches. *)
Theorem batches_disjoint (rt : Runtime) (srv : Server) (req_body event : JsVal)
    (rest : list JsVal) (b : Buffers) :
  get_prop req_body "events" = Ok (JArr (event :: rest)) ->
  clickhouseConnected srv = true ->
  forEach rt empty_buffers (event :: rest) = Ok b ->
  let events := event :: rest in
  (forall k, Forall2 (placed rt k events) (positions k 0 events) (batch k b))
  /\ (forall k, NoDup (positions k 0 events))
  /\ (forall k1 k2 i,
        In i (positions k1 0 events) -> In i (positions k2 0 events) -> k1 = k2)
  /\ length (pageViews b) + length (gameInteractions b)
     + length (searchEvents b) + length (performanceMetrics b) <= length events
  /\ insert_calls (clickhouse (snd (post_events rt srv req_body)))
     = insert_calls (clickhouse srv) ++ batch_calls b.
Proof.
  intros Hb Hc Hf events.
  assert (Hrows : forall k, Forall2 (placed rt k events) (positions k 0 events) (batch k b))
    by (intros k; now apply forEach_from_empty).
  split; [exact Hrows|]. split; [intros k; apply positions_NoDup|].
  split; [intros k1 k2 i; apply positions_disjoint|]. split.
  - pose proof (positions_total events 0) as Ht.
    rewrite (Forall2_length (Hrows PageView)), (Forall2_length (Hrows GameInteraction)),
      (Forall2_length (Hrows Search)), (Forall2_length (Hrows Performance)) in Ht.
    exact Ht.
  - rewrite (post_events_run _ _ _ _ _ _ Hb Hc Hf). cbn [snd clickhouse].
    apply insert_batches_calls.
Qed.

Lemma batches_disjoint_witness :
  let events := [sample_event "page_view" "e-1"; sample_event "bogus" "e-2";
                 sample_event "search" "e-3"; sample_event "page_view" "e-1"] in
  positions PageView 0 events = [0; 3]
  /\ positions Search 0 events = [2]
  /\ forall k1 k2 i,
       In i (positions k1 0 events) -> In i (positions k2 0 events) -> k1 = k2.
Proof.
  intros events. split; [reflexivity|]. split; [reflexivity|].
  destruct (forEach sample_runtime empty_buffers events) as [b|] eqn:Hf;
    [|vm_compute in Hf; discriminate].
  exact (proj1 (proj2 (proj2
    (batches_disjoint sample_runtime (connected_server []) (events_request events)
       (sample_event "page_view" "e-1")
       [sample_event "bogus" "e-2"; sample_event "search" "e-3";
        sample_event "page_view" "e-1"] b eq_refl eq_refl Hf)))).
Defined.

(** * Properties of the event tracking endpoint *)

Lemma first_rejection_In {A} (ps : list (Settled A)) e t :
  first_rejection ps = Some (e, t) -> In (Rejected e t) ps.
Proof.
  revert e t.
  induction ps as [|[a|e0 t0] ps IH]; intros e t; cbn [first_rejection In];
    [discriminate| |].
  - intros H. right. now apply IH.
  - destruct (first_rejection ps) as [[e' t']|].
    + destruct (Nat.ltb t' t0); intros H; injection H as H1 H2; subst.
      * right. now apply IH.
      * now left.
    + intros H. injection H as H1 H2; subst. now left.
Qed.

Lemma first_rejection_None {A} (ps : list (Settled A)) e t :
  first_rejection ps = None -> ~ In (Rejected e t) ps.
Proof.
  induction ps as [|[a|e0 t0] ps IH]; cbn [first_rejection In]; [tauto| |].
  - intros H [Hd|Hi]; [discriminate | now apply IH].
  - destruct (first_rejection ps) as [[e' t']|]; [destruct (Nat.ltb t' t0)|]; discriminate.
Qed.

(** [await Promise.all(...)] throws as soon as one promise is rejected, and
    what it throws is the reason of one of the rejected promises. *)
Lemma await_all_throws {A} (ps : list (Settled A)) e t :
  In (Rejected e t) ps ->
  exists e' t', In (Rejected e' t') ps /\ await_all ps = Throw e'.
Proof.
  intros H. unfold await_all.
  destruct (first_rejection ps) as [[e' t']|] eqn:E.
  - exists e', t'. split; [now apply first_rejection_In | reflexivity].
  - now apply first_rejection_None with (e := e) (t := t) in E.
Qed.

Lemma await_all_fulfilled {A} (ps : list (Settled A)) :
  (forall e t, ~ In (Rejected e t) ps) -> await_all ps = Ok (fulfilled_values ps).
Proof.
  intros H. unfold await_all.
  destruct (first_rejection ps) as [[e t]|] eqn:E; [|reflexivity].
  apply first_rejection_In in E. now apply H in E.
Qed.

Lemma incl_tl {A} (l fs : list A) : incl l fs -> incl (tl l) fs.
Proof. destruct l as [|x l]; [easy|]. intros H y Hy. apply H. now right. Qed.

Lemma push_insert_from_faults fs k b acc :
  from_faults fs acc -> from_faults fs (push_insert k b acc).
Proof.
  intros [Hi Hr]. unfold push_insert. destruct (batch k b) as [|x xs]; [now split|].
  destruct (next_outcome (snd acc)) as [|m t] eqn:E.
  - rewrite (insertData_accept _ _ _ _ E). split; cbn [fst snd faults].
    + now apply incl_tl.
    + intros e t H. apply in_app_or in H as [H|H]; [now apply Hr|].
      destruct H as [H|[]]. discriminate.
  - rewrite (insertData_reject _ _ _ _ _ _ E). split; cbn [fst snd faults].
    + now apply incl_tl.
    + intros e t' H. apply in_app_or in H as [H|H]; [now apply Hr|].
      destruct H as [H|[]]. injection H as <- <-. exists m. split; [reflexivity|].
      apply Hi. unfold next_outcome in E.
      destruct (faults (snd acc)) as [|o rest]; [discriminate|].
      cbn in E. subst o. now left.
Qed.

Lemma insert_batches_from_faults b ch :
  from_faults (faults ch) (insert_batches b ch).
Proof.
  unfold insert_batches. repeat apply push_insert_from_faults.
  split; [apply incl_refl | intros e t []].
Qed.

(** The five ways through the handler. *)
Lemma post_events_cases rt srv req_body :
  (exists e, get_prop req_body "events" = Throw e
             /\ post_events rt srv req_body = (events_failed e, srv))
  \/ (exists v, get_prop req_body "events" = Ok v /\ nonempty_array v = false
                 /\ post_events rt srv req_body = (events_required, srv))
  \/ (exists event rest,
         get_prop req_body "events" = Ok (JArr (event :: rest))
         /\ clickhouseConnected srv = false
         /\ post_events rt srv req_body = (events_queued (event :: rest), srv))
  \/ (exists event rest e,
         get_prop req_body "events" = Ok (JArr (event :: rest))
         /\ clickhouseConnected srv = true
         /\ forEach rt empty_buffers (event :: rest) = Throw e
         /\ post_events rt srv req_body = (events_failed e, srv))
  \/ (exists event rest b,
         get_prop req_body "events" = Ok (JArr (event :: rest))
         /\ clickhouseConnected srv = true
         /\ forEach rt empty_buffers (event :: rest) = Ok b).
Proof.
  destruct (get_prop req_body "events") as [v|e] eqn:Ev.
  - destruct (nonempty_array v) eqn:En.
    + destruct v as [| | | | |[|event rest]|]; try discriminate.
      destruct (clickhouseConnected srv) eqn:Ec.
      * destruct (forEach rt empty_buffers (event :: rest)) as [b|e] eqn:Ef.
        -- do 4 right. now exists event, rest, b.
        -- do 3 right. left. exists event, rest, e.
           split; [reflexivity|]. split; [reflexivity|]. split; [exact Ef|].
           now apply post_events_loop_throws with (event := event) (rest := rest).
      * do 2 right. left. exists event, rest.
        split; [reflexivity|]. split; [reflexivity|].
        unfold post_events. now rewrite Ev, Ec.
    + right. left. exists v. split; [reflexivity|]. split; [exact En|].
      unfold post_events. rewrite Ev.
      destruct v as [| | | | |[|event rest]|]; try reflexivity. discriminate.
  - left. exists e. split; [reflexivity|]. unfold post_events. now rewrite Ev.
Qed.

Lemma post_events_status rt srv req_body :
  status (fst (post_events rt srv req_body)) = 200
  \/ status (fst (post_events rt srv req_body)) = 400
  \/ status (fst (post_events rt srv req_body)) = 500.
Proof.
  destruct (post_events_cases rt srv req_body)
    as [(e & _ & ->)|[(v & _ & _ & ->)|[(ev & rest & _ & _ & ->)|
        [(ev & rest & e & _ & _ & _ & ->)|(ev & rest & b & Hb & Hc & Hf)]]]]; cbn; auto.
  rewrite (post_events_run _ _ _ _ _ _ Hb Hc Hf). cbn [fst].
  destruct (await_all _); cbn; auto.
Qed.

(** The guard: 400 is the answer to a body whose [events] is not a
    non-empty array, and to no other. *)
Lemma post_events_400 rt srv req_body :
  status (fst (post_events rt srv req_body)) = 400
  <-> exists v, get_prop req_body "events" = Ok v /\ nonempty_array v = false.
Proof.
  destruct (post_events_cases rt srv req_body)
    as [(e & He & ->)|[(v & Hv & Hn & ->)|[(ev & rest & Hb & _ & ->)|
        [(ev & rest & e & Hb & _ & _ & ->)|(ev & rest & b & Hb & Hc & Hf)]]]].
  - split; [discriminate | intros (v & H & _); congruence].
  - split; [intros _; now exists v | reflexivity].
  - split; [discriminate | intros (v & H & Hn)].
    rewrite Hb in H. injection H as <-. discriminate.
  - split; [discriminate | intros (v & H & Hn)].
    rewrite Hb in H. injection H as <-. discriminate.
  - rewrite (post_events_run _ _ _ _ _ _ Hb Hc Hf). cbn [fst].
    split; [destruct (await_all _); discriminate | intros (v & H & Hn)].
    rewrite Hb in H. injection H as <-. discriminate.
Qed.

Lemma unrecognized_switch event :
  unrecognized event -> switch_event_type event = None.
Proof.
  intros H. unfold switch_event_type.
  pose proof (H PageView) as H1. pose proof (H GameInteraction) as H2.
  pose proof (H Search) as H3. pose proof (H Performance) as H4.
  destruct (prop event "event_type") as [| | | |s| |]; try reflexivity.
  cbn [kind_name] in *.
  destruct (String.eqb_spec s "page_view"); [congruence|].
  destruct (String.eqb_spec s "game_interaction"); [congruence|].
  destruct (String.eqb_spec s "search"); [congruence|].
  destruct (String.eqb_spec s "performance"); [congruence|reflexivity].
Qed.

Lemma positions_unrecognized k events :
  Forall unrecognized events -> forall i, positions k i events = [].
Proof.
  induction 1 as [|event rest He _ IH]; intros i; cbn [positions]; [reflexivity|].
  unfold has_kind. now rewrite (unrecognized_switch _ He).
Qed.

Lemma insert_batches_empty b ch :
  (forall k, batch k b = []) -> insert_batches b ch = ([], ch).
Proof.
  intros H. unfold insert_batches, push_insert. now rewrite !H.
Qed.

Lemma server_eta srv :
  {| clickhouseConnected := clickhouseConnected srv; clickhouse := clickhouse srv |} = srv.
Proof. now destruct srv. Qed.

Lemma process_event_unrecognized rt b event b' :
  unrecognized event -> process_event rt b event = Ok b' ->
  forall k, batch k b' = batch k b.
Proof.
  intros Hu Hp k. destruct (process_event_batch _ _ _ _ Hp) as (baseEvent & H).
  rewrite H. unfold has_kind. rewrite (unrecognized_switch _ Hu). apply app_nil_r.
Qed.

(** C2, as the code has it. An event whose [event_type] is absent or is none
    of the four names goes through the loop without touching any of the
    four arrays. When every submitted event is such, no insert is issued,
    the server is as it was, and the answer is a 200 whose [processed]
    counts the events in [total] and reports zero for every kind: nothing is
    reported as rejected. *)
Theorem unknown_kind_skipped (rt : Runtime) (srv : Server) (req_body event : JsVal)
    (rest : list JsVal) (b : Buffers) :
  get_prop req_body "events" = Ok (JArr (event :: rest)) ->
  clickhouseConnected srv = true ->
  Forall unrecognized (event :: rest) ->
  forEach rt empty_buffers (event :: rest) = Ok b ->
  (forall k, batch k b = [])
  /\ post_events rt srv req_body = (none_processed (event :: rest), srv)
  /\ prop (body (fst (post_events rt srv req_body))) "rejected" = JUndefined
  /\ (forall b0 event0 b1,
        unrecognized event0 -> process_event rt b0 event0 = Ok b1 ->
        forall k, batch k b1 = batch k b0).
Proof.
  intros Hb Hc Hu Hf.
  cut ((forall k, batch k b = [])
       /\ post_events rt srv req_body = (none_processed (event :: rest), srv)
       /\ prop (body (fst (post_events rt srv req_body))) "rejected" = JUndefined).
  { intros (H1 & H2 & H3). repeat split; try assumption.
    intros b0 event0 b1. apply process_event_unrecognized. }
  assert (He : forall k, batch k b = []).
  { intros k. pose proof (forEach_from_empty rt k _ _ Hf) as H.
    rewrite (positions_unrecognized k _ Hu) in H. now inversion H. }
  split; [exact He|].
  rewrite (post_events_run _ _ _ _ _ _ Hb Hc Hf), (insert_batches_empty _ _ He).
  cbn [fst snd await_all first_rejection]. rewrite server_eta.
  unfold events_processed, processed_counts, none_processed.
  pose proof (He PageView) as E1. pose proof (He GameInteraction) as E2.
  pose proof (He Search) as E3. pose proof (He Performance) as E4.
  cbn [batch] in E1, E2, E3, E4. rewrite E1, E2, E3, E4. split; reflexivity.
Qed.

Lemma sample_unrecognized : unrecognized (JObj [("kind", JStr "bogus")]).
Proof. intros k. cbn. discriminate. Qed.

Lemma unknown_kind_skipped_witness :
  post_events sample_runtime (connected_server [])
    (events_request [JObj [("kind", JStr "bogus")]])
  = (none_processed [JObj [("kind", JStr "bogus")]], connected_server []).
Proof.
  exact (proj1 (proj2
    (unknown_kind_skipped sample_runtime (connected_server [])
       (events_request [JObj [("kind", JStr "bogus")]])
       (JObj [("kind", JStr "bogus")]) [] (tick_uuid (tick_clock empty_buffers))
       eq_refl eq_refl (Forall_cons _ sample_unrecognized (Forall_nil _)) eq_refl))).
Defined.

(** C2, refuted as stated: one event of kind ["bogus"], whether it is
    written under [kind] or under [event_type]. The answer is a 200 that
    says [success] and counts the event in [processed.total]; it has no
    [accepted] and no [rejected]. *)
Lemma bogus_kind_not_rejected :
  let claimed (r : Response) :=
    prop (body r) "accepted" = JNum 0
    /\ prop (body r) "rejected"
       = JArr [JObj [("index", JNum 0); ("reason", JStr "UnknownKind")]] in
  let r1 := fst (post_events sample_runtime (connected_server [])
                   (events_request [JObj [("kind", JStr "bogus")]])) in
  let r2 := fst (post_events sample_runtime (connected_server [])
                   (events_request [sample_event "bogus" "e-1"])) in
  ~ claimed r1 /\ ~ claimed r2
  /\ status r1 = 200 /\ status r2 = 200
  /\ prop (body r1) "success" = JBool true
  /\ prop (prop (body r2) "processed") "total" = JNum 1.
Proof.
  vm_compute. repeat split; intros [H _]; discriminate.
Qed.

Lemma insert_batches_accepted b ch :
  (forall m t, ~ In (Reject m t) (faults ch)) ->
  exists values, await_all (fst (insert_batches b ch)) = Ok values.
Proof.
  intros H. eexists. apply await_all_fulfilled. intros e t Hr.
  destruct (insert_batches_from_faults b ch) as [_ Hf].
  destruct (Hf _ _ Hr) as (m & _ & Hm). now apply H in Hm.
Qed.

(** C3, as the code has it. A non-empty events array gets a 200, never a
    202. When ClickHouse is not connected the body is [{success: true,
    message: 'Events queued for processing', processed: N}]. When it is
    connected, the loop runs through and the server accepts the inserts, the
    body is [{success: true, message: 'Events processed successfully',
    processed: {total, page_views, game_interactions, search_events,
    performance_metrics}}]. *)
Theorem accepted_events_response (rt : Runtime) (srv : Server) (req_body event : JsVal)
    (rest : list JsVal) :
  get_prop req_body "events" = Ok (JArr (event :: rest)) ->
  (clickhouseConnected srv = false ->
     post_events rt srv req_body = (events_queued (event :: rest), srv))
  /\ (forall b,
        clickhouseConnected srv = true ->
        forEach rt empty_buffers (event :: rest) = Ok b ->
        (forall m t, ~ In (Reject m t) (faults (clickhouse srv))) ->
        fst (post_events rt srv req_body) = events_processed (event :: rest) b
        /\ status (fst (post_events rt srv req_body)) = 200)
  /\ status (fst (post_events rt srv req_body)) <> 202.
Proof.
  intros Hb. split; [|split].
  - intros Hc. unfold post_events. now rewrite Hb, Hc.
  - intros b Hc Hf Ha. rewrite (post_events_run _ _ _ _ _ _ Hb Hc Hf). cbn [fst].
    destruct (insert_batches_accepted b (clickhouse srv) Ha) as (values & ->).
    split; reflexivity.
  - destruct (post_events_status rt srv req_body) as [H|[H|H]]; rewrite H; discriminate.
Qed.

Lemma accepted_events_response_witness :
  post_events sample_runtime disconnected_server
    (events_request [sample_event "page_view" "e-1"])
  = (events_queued [sample_event "page_view" "e-1"], disconnected_server).
Proof.
  exact (proj1 (accepted_events_response sample_runtime disconnected_server
                  (events_request [sample_event "page_view" "e-1"])
                  (sample_event "page_view" "e-1") [] eq_refl) eq_refl).
Defined.

(** C3, refuted as stated: one well-formed [page_view] event, accepted and
    stored. The status is 200, and the body has [success], [message] and
    [processed], not [accepted], [rejected] and [dead_lettered]. *)
Lemma accepted_events_not_202 :
  let h := post_events sample_runtime (connected_server [])
             (events_request [sample_event "page_view" "e-1"]) in
  status (fst h) = 200
  /\ status (fst h) <> 202
  /\ length (stored (clickhouse (snd h)) "page_views") = 1
  /\ prop (body (fst h)) "accepted" = JUndefined
  /\ prop (body (fst h)) "rejected" = JUndefined
  /\ prop (body (fst h)) "dead_lettered" = JUndefined
  /\ prop (prop (body (fst h)) "processed") "page_views" = JNum 1.
Proof. vm_compute. repeat split. discriminate. Qed.

(** C4, as the code has it. An empty events array is answered by the guard
    of the handler: 400 with [{success: false, error: 'Events array is
    required'}], whether ClickHouse is connected or not, and the server is
    left as it was. *)
Theorem empty_events_rejected (rt : Runtime) (srv : Server) (req_body : JsVal) :
  get_prop req_body "events" = Ok (JArr []) ->
  post_events rt srv req_body = (events_required, srv)
  /\ status (fst (post_events rt srv req_body)) = 400
  /\ body (fst (post_events rt srv req_body))
     = JObj [("success", JBool false); ("error", JStr "Events array is required")].
Proof.
  intros Hb. unfold post_events. rewrite Hb. repeat split.
Qed.

Lemma empty_events_rejected_witness :
  post_events sample_runtime (connected_server []) (events_request [])
  = (events_required, connected_server []).
Proof.
  exact (proj1 (empty_events_rejected sample_runtime (connected_server [])
                  (events_request []) eq_refl)).
Defined.

(** C4, refuted as stated: the empty events array gets a 400 and an error
    body, not a 200 with zero counts. *)
Lemma empty_events_not_200 :
  let r := fst (post_events sample_runtime (connected_server []) (events_request [])) in
  status r = 400
  /\ status r <> 200
  /\ prop (body r) "success" = JBool false
  /\ prop (body r) "error" = JStr "Events array is required"
  /\ prop (body r) "accepted" = JUndefined.
Proof. vm_compute. repeat split. discriminate. Qed.

(** C1, as the code has it. When an insert of an ingestion call fails, the
    [catch] of the handler answers 500 with [{success: false, error: 'Failed
    to process analytics events', message}], where [message] is the message
    of a failure of the server. The handler answers 400 exactly when the
    [events] of the body is not a non-empty array, and a body that
    [express.json()] cannot parse ends in the error middleware, with 500. *)
Theorem store_failure_surfaces (rt : Runtime) (srv : Server) (req_body event : JsVal)
    (rest : list JsVal) (b : Buffers) (err : JsError) (t : nat) :
  get_prop req_body "events" = Ok (JArr (event :: rest)) ->
  clickhouseConnected srv = true ->
  forEach rt empty_buffers (event :: rest) = Ok b ->
  In (Rejected err t) (fst (insert_batches b (clickhouse srv))) ->
  (exists m t',
      In (Reject m t') (faults (clickhouse srv))
      /\ fst (post_events rt srv req_body) = events_failed (StoreError m))
  /\ status (fst (post_events rt srv req_body)) = 500
  /\ (forall srv' req_body',
        status (fst (post_events rt srv' req_body')) = 400
        <-> exists v, get_prop req_body' "events" = Ok v /\ nonempty_array v = false)
  /\ (forall srv' message,
        status (fst (app_post_events rt srv' (Unparsable message))) = 500).
Proof.
  intros Hb Hc Hf Hr.
  destruct (await_all_throws _ _ _ Hr) as (e' & t' & Hin & Ha).
  destruct (insert_batches_from_faults b (clickhouse srv)) as [_ Hfs].
  destruct (Hfs _ _ Hin) as (m & -> & Hm).
  assert (E : fst (post_events rt srv req_body) = events_failed (StoreError m)).
  { rewrite (post_events_run _ _ _ _ _ _ Hb Hc Hf). cbn [fst]. now rewrite Ha. }
  split; [now exists m, t'|]. split; [now rewrite E|].
  split; [intros srv' req_body'; apply post_events_400 | reflexivity].
Qed.

Lemma store_failure_surfaces_witness :
  status (fst (post_events sample_runtime (connected_server [Reject "timeout" 5])
                 (events_request [sample_event "search" "e-7"]))) = 500.
Proof.
  refine (proj1 (proj2
    (store_failure_surfaces sample_runtime (connected_server [Reject "timeout" 5])
       (events_request [sample_event "search" "e-7"]) (sample_event "search" "e-7") []
       (push Search
          (row_of sample_runtime Search
             [("event_id", JStr "e-7"); ("session_id", JStr "s-1");
              ("user_id", JNull); ("timestamp", JStr "2024-05-01 09:59:58")]
             (sample_event "search" "e-7"))
          empty_buffers)
       (StoreError "timeout") 5 eq_refl eq_refl eq_refl _))).
  vm_compute. now left.
Defined.

(** C1, refuted as stated: the server rejects the insert of one
    [page_view] event. The caller gets a 500 whose body says [success:
    false] and carries the message of the store. Besides, an unparsable body
    gets a 500 and an empty events array, which is well formed, a 400. *)
Lemma store_failure_is_error_response :
  let r := fst (post_events sample_runtime (connected_server [Reject "timeout" 5])
                  (events_request [sample_event "page_view" "e-1"])) in
  status r = 500
  /\ prop (body r) "success" = JBool false
  /\ prop (body r) "error" = JStr "Failed to process analytics events"
  /\ prop (body r) "message" = JStr "timeout"
  /\ status (fst (app_post_events sample_runtime (connected_server [])
                    (Unparsable "Unexpected token } in JSON at position 12"))) = 500
  /\ status (fst (app_post_events sample_runtime (connected_server [])
                    (Parsed (events_request [])))) = 400.
Proof. vm_compute. repeat split. Qed.

(** * Properties of the dashboard endpoint *)

(** The handler, once connected and the four queries have answered. *)
Lemma get_dashboard_answers rt srv req_query rm gp cf ub :
  clickhouseConnected srv = true ->
  getRealTimeMetrics rt (clickhouse srv) (requested_range req_query) = Fulfilled rm ->
  getGamePopularity rt (clickhouse srv) (JStr "7 DAY") = Fulfilled gp ->
  getConversionFunnel rt (clickhouse srv) (JStr "7 DAY") = Fulfilled cf ->
  getUserBehaviorMetrics rt (clickhouse srv) (JStr "7 DAY") = Fulfilled ub ->
  get_dashboard rt srv req_query
  = match dashboard_summary rt rm ub with
    | Throw e => dashboard_failed e
    | Ok summary => dashboard_view summary rm gp cf ub (requested_range req_query)
    end.
Proof.
  intros Hc H1 H2 H3 H4. unfold get_dashboard. fold (requested_range req_query).
  now rewrite Hc, H1, H2, H3, H4.
Qed.

(** The three ways through the handler. *)
Lemma get_dashboard_cases rt srv req_query :
  get_dashboard rt srv req_query = dashboard_unavailable
  \/ (exists e, get_dashboard rt srv req_query = dashboard_failed e)
  \/ (exists summary rm gp cf ub,
        get_dashboard rt srv req_query
        = dashboard_view summary rm gp cf ub (requested_range req_query)).
Proof.
  unfold get_dashboard. fold (requested_range req_query).
  destruct (clickhouseConnected srv); cbn [negb]; [|now left]. right.
  destruct (await_all _) as [[|rm [|gp [|cf [|ub [|x rest]]]]]|e];
    try (left; eexists; reflexivity).
  destruct (dashboard_summary rt rm ub) as [summary|e]; [right|left; now exists e].
  now exists summary, rm, gp, cf, ub.
Qed.

(** C7, as the code has it. The dashboard handler does not check the range:
    a string is spliced into the text of the query as it is. The answer is
    503 when ClickHouse is not connected and, when it is, 500 with the
    message of the error if the server rejects the query; it is never 400
    and its body never has a [reason]. *)
Theorem dashboard_range_unchecked (rt : Runtime) (srv : Server)
    (req_query : list (string * JsVal)) :
  (clickhouseConnected srv = false ->
     get_dashboard rt srv req_query = dashboard_unavailable)
  /\ (forall e t,
        clickhouseConnected srv = true ->
        getRealTimeMetrics rt (clickhouse srv) (requested_range req_query)
        = Rejected e t ->
        exists e', get_dashboard rt srv req_query = dashboard_failed e'
                   /\ status (get_dashboard rt srv req_query) = 500)
  /\ (forall range,
        getRealTimeMetrics rt (clickhouse srv) (JStr range)
        = answer (clickhouse srv) (getRealTimeMetrics_query range))
  /\ status (get_dashboard rt srv req_query) <> 400
  /\ prop (body (get_dashboard rt srv req_query)) "reason" = JUndefined.
Proof.
  split; [|split; [|split; [|split]]].
  - intros Hc. unfold get_dashboard. now rewrite Hc.
  - intros e t Hc Hr. unfold get_dashboard. fold (requested_range req_query).
    rewrite Hc, Hr. cbn [negb].
    match goal with |- context [await_all ?ps] =>
      destruct (await_all_throws ps e t (or_introl eq_refl)) as (e' & t' & _ & ->) end.
    exists e'. split; reflexivity.
  - reflexivity.
  - destruct (get_dashboard_cases rt srv req_query)
      as [->|[(e & ->)|(sm & rm & gp & cf & ub & ->)]]; discriminate.
  - destruct (get_dashboard_cases rt srv req_query)
      as [->|[(e & ->)|(sm & rm & gp & cf & ub & ->)]]; reflexivity.
Qed.

Lemma dashboard_range_unchecked_witness :
  get_dashboard sample_runtime disconnected_server [("timeRange", JStr "last tuesday")]
  = dashboard_unavailable
  /\ exists e',
       get_dashboard sample_runtime strict_server [("timeRange", JStr "last tuesday")]
       = dashboard_failed e'
       /\ status (get_dashboard sample_runtime strict_server
                    [("timeRange", JStr "last tuesday")]) = 500.
Proof.
  split.
  - exact (proj1 (dashboard_range_unchecked sample_runtime disconnected_server
                    [("timeRange", JStr "last tuesday")]) eq_refl).
  - exact (proj1 (proj2 (dashboard_range_unchecked sample_runtime strict_server
                           [("timeRange", JStr "last tuesday")]))
             (StoreError "Syntax error: failed at position 312 (tuesday)") 1
             eq_refl eq_refl).
Defined.

(** C7, refuted as stated: the range [last tuesday], which the server
    cannot parse. The answer is a 500 without [reason]; with ClickHouse
    not connected it is a 503. *)
Lemma malformed_range_is_500 :
  let q := [("timeRange", JStr "last tuesday")] in
  status (get_dashboard sample_runtime strict_server q) = 500
  /\ status (get_dashboard sample_runtime strict_server q) <> 400
  /\ prop (body (get_dashboard sample_runtime strict_server q)) "reason" = JUndefined
  /\ prop (body (get_dashboard sample_runtime strict_server q)) "error"
     = JStr "Failed to fetch dashboard analytics"
  /\ status (get_dashboard sample_runtime disconnected_server q) = 503.
Proof. vm_compute. repeat split. discriminate. Qed.

(** C8, as the code has it. With ClickHouse connected, when the query over
    the requested range answers no row and so does the query over the
    sessions of the last seven days, from which the two averages are taken,
    the answer is a 200 whose summary is all zeros. *)
Theorem zero_events_dashboard (rt : Runtime) (srv : Server)
    (req_query : list (string * JsVal)) (gp cf : list JsVal) :
  clickhouseConnected srv = true ->
  getRealTimeMetrics rt (clickhouse srv) (requested_range req_query) = Fulfilled [] ->
  getGamePopularity rt (clickhouse srv) (JStr "7 DAY") = Fulfilled gp ->
  getConversionFunnel rt (clickhouse srv) (JStr "7 DAY") = Fulfilled cf ->
  getUserBehaviorMetrics rt (clickhouse srv) (JStr "7 DAY") = Fulfilled [] ->
  get_dashboard rt srv req_query
  = dashboard_view zero_summary [] gp cf [] (requested_range req_query)
  /\ status (get_dashboard rt srv req_query) = 200
  /\ prop (prop (body (get_dashboard rt srv req_query)) "data") "summary" = zero_summary.
Proof.
  intros Hc H1 H2 H3 H4.
  rewrite (get_dashboard_answers _ _ _ _ _ _ _ Hc H1 H2 H3 H4). cbn. repeat split.
Qed.

Lemma zero_events_dashboard_witness :
  status (get_dashboard sample_runtime (connected_server []) []) = 200
  /\ prop (prop (body (get_dashboard sample_runtime (connected_server []) [])) "data")
          "summary" = zero_summary.
Proof.
  exact (proj2 (zero_events_dashboard sample_runtime (connected_server []) [] [] []
                  eq_refl eq_refl eq_refl eq_refl eq_refl)).
Defined.

(** C8, refuted as stated: a dashboard query over the last hour, in which
    there is no event at all. With sessions earlier in the week the summary
    has averages that are not zero; with ClickHouse not connected the
    answer is the error response 503. *)
Lemma quiet_range_not_zeroed :
  let q := [("timeRange", JStr "1 HOUR")] in
  let r := get_dashboard sample_runtime quiet_hour_server q in
  answer (clickhouse quiet_hour_server) (getRealTimeMetrics_query "1 HOUR") = Fulfilled []
  /\ status r = 200
  /\ prop (prop (prop (body r) "data") "summary") "avg_session_duration" = JNum 120
  /\ prop (prop (prop (body r) "data") "summary") "bounce_rate" = JNum 50
  /\ prop (prop (body r) "data") "summary" <> zero_summary
  /\ status (get_dashboard sample_runtime disconnected_server q) = 503
  /\ prop (body (get_dashboard sample_runtime disconnected_server q)) "success"
     = JBool false.
Proof. vm_compute. repeat split. discriminate. Qed.

(** * Properties of the batch insert *)

Lemma accepting_next ch :
  (forall m t, ~ In (Reject m t) (faults ch)) -> next_outcome ch = Accept.
Proof.
  intros H. unfold next_outcome. destruct (faults ch) as [|[|m t] rest]; try reflexivity.
  exfalso. apply (H m t). now left.
Qed.

Lemma chunks_nil fuel size : chunks fuel size [] = [].
Proof. now destruct fuel. Qed.

Lemma chunks_concat size :
  0 < size -> forall fuel l, length l <= fuel -> concat (chunks fuel size l) = l.
Proof.
  intros Hs. induction fuel as [|fuel IH]; intros l Hl.
  - destruct l; [reflexivity | cbn in Hl; lia].
  - destruct l as [|x xs]; [reflexivity|].
    cbn [chunks concat]. rewrite IH; [apply firstn_skipn|].
    rewrite length_skipn. cbn [length] in *. lia.
Qed.

Lemma chunks_bounds size :
  0 < size -> forall fuel l,
    Forall (fun c => 0 < length c <= size) (chunks fuel size l).
Proof.
  intros Hs. induction fuel as [|fuel IH]; intros l; [constructor|].
  destruct l as [|x xs]; [constructor|]. cbn [chunks]. constructor; [|apply IH].
  rewrite length_firstn. cbn [length]. lia.
Qed.

Lemma chunks_length size :
  0 < size -> forall fuel l, length l <= fuel ->
    length (chunks fuel size l) = (length l + size - 1) / size.
Proof.
  intros Hs. induction fuel as [|fuel IH]; intros l Hl.
  - destruct l; [|cbn in Hl; lia]. cbn. symmetry. apply Nat.div_small. lia.
  - destruct l as [|x xs]; [cbn; symmetry; apply Nat.div_small; lia|].
    cbn [chunks length]. rewrite IH by (rewrite length_skipn; cbn [length] in *; lia).
    rewrite length_skipn. cbn [length].
    destruct (Nat.le_gt_cases size (S (length xs))) as [Hle|Hgt].
    + replace (S (length xs) + size - 1) with ((S (length xs) - size + size - 1) + 1 * size)
        by lia.
      rewrite Nat.div_add by lia. lia.
    + replace (S (length xs) - size) with 0 by lia.
      rewrite (Nat.div_small (0 + size - 1)) by lia.
      replace (S (length xs) + size - 1) with ((S (length xs) - 1) + 1 * size) by lia.
      rewrite Nat.div_add by lia. rewrite Nat.div_small by lia. reflexivity.
Qed.

Lemma firstn_nonempty (size : nat) (x : JsVal) xs :
  0 < size -> exists y ys, firstn size (x :: xs) = y :: ys.
Proof. destruct size; [lia|]. intros _. cbn. eauto. Qed.

(** The loop on a server that accepts every insert. *)
Lemma batchInsert_loop_accepted table dataArray size :
  0 < size ->
  forall fuel i totalInserted batchCount ch,
    (forall m t, ~ In (Reject m t) (faults ch)) ->
    length (skipn i dataArray) <= fuel ->
    exists ch',
      batchInsert_loop fuel table dataArray size i totalInserted batchCount ch
      = Some (Fulfilled (batch_result
                           (totalInserted + length (skipn i dataArray))
                           (batchCount + length (chunks fuel size (skipn i dataArray)))),
              ch')
      /\ rows ch' = rows ch ++ map (pair table) (skipn i dataArray)
      /\ insert_calls ch'
         = insert_calls ch ++ map (pair table) (chunks fuel size (skipn i dataArray)).
Proof.
  intros Hs. induction fuel as [|fuel IH]; intros i tot cnt ch Hacc Hfuel.
  - assert (E : skipn i dataArray = []) by (destruct (skipn i dataArray); [easy | cbn in Hfuel; lia]).
    assert (Hi : Nat.ltb i (length dataArray) = false).
    { apply Nat.ltb_ge. pose proof (length_skipn i dataArray) as L.
      rewrite E in L. cbn in L. lia. }
    cbn [batchInsert_loop]. rewrite Hi, E. cbn [length chunks map].
    rewrite !Nat.add_0_r, !app_nil_r. now exists ch.
  - cbn [batchInsert_loop]. destruct (Nat.ltb i (length dataArray)) eqn:Hi.
    + apply Nat.ltb_lt in Hi.
      destruct (skipn i dataArray) as [|x xs] eqn:E.
      { pose proof (length_skipn i dataArray) as L. rewrite E in L. cbn in L. lia. }
      destruct (firstn_nonempty size x xs Hs) as (y & ys & Ey).
      cbn zeta. rewrite Ey, (insertData_accept _ _ _ _ (accepting_next _ Hacc)).
      set (ch1 := {| rows := rows ch ++ map (pair table) (y :: ys);
                     insert_calls := insert_calls ch ++ [(table, y :: ys)];
                     faults := tl (faults ch); answer := answer ch |}).
      assert (Hacc1 : forall m t, ~ In (Reject m t) (faults ch1)).
      { intros m t H. apply (Hacc m t). cbn in H.
        destruct (faults ch); [easy | now right]. }
      assert (Es : skipn (i + size) dataArray = skipn size (x :: xs))
        by (now rewrite <- E, skipn_skipn, Nat.add_comm).
      assert (Hf1 : length (skipn (i + size) dataArray) <= fuel).
      { rewrite Es, length_skipn. cbn [length] in *. lia. }
      destruct (IH (i + size) (tot + length (y :: ys)) (S cnt) ch1 Hacc1 Hf1)
        as (ch' & -> & Hr & Hc).
      exists ch'. rewrite Es in *. split; [|split].
      * assert (L : length (y :: ys) + length (skipn size (x :: xs)) = length (x :: xs))
          by (now rewrite <- Ey, <- length_app, firstn_skipn).
        assert (T : tot + length (y :: ys) + length (skipn size (x :: xs))
                    = tot + length (x :: xs)) by lia.
        assert (C : S cnt + length (chunks fuel size (skipn size (x :: xs)))
                    = cnt + length (chunks (S fuel) size (x :: xs)))
          by (cbn [chunks length]; lia).
        now rewrite T, C.
      * rewrite Hr. cbn [rows ch1]. rewrite <- app_assoc, <- map_app, <- Ey.
        now rewrite firstn_skipn.
      * rewrite Hc. cbn [insert_calls ch1 chunks map]. rewrite <- app_assoc, <- Ey.
        reflexivity.
    + apply Nat.ltb_ge in Hi. rewrite (skipn_all2 dataArray Hi), chunks_nil.
      cbn [length map]. rewrite !Nat.add_0_r, !app_nil_r. now exists ch.
Qed.

Lemma stored_rows_app ch ch' table extra :
  rows ch' = rows ch ++ map (pair table) extra ->
  stored ch' table = stored ch table ++ extra.
Proof.
  intros H. unfold stored. now rewrite H, filter_app, map_app, stored_own_rows.
Qed.

(** X1. On a server that accepts every insert, [batchInsert] with a positive
    batch size and a non-empty array of [n] records finishes, reports
    [totalInserted: n] and [batches: ceil(n / batchSize)], and has sent the
    records in that many insert calls: slices that are non-empty, no longer
    than the batch size, and that put end to end give the array back. The
    table holds the records after what it held. *)
Theorem batchInsert_slices (fuel : nat) (table : string) (x : JsVal) (xs : list JsVal)
    (batchSize : nat) (ch : ClickHouse) :
  0 < batchSize ->
  (forall m t, ~ In (Reject m t) (faults ch)) ->
  length (x :: xs) <= fuel ->
  exists ch' slices,
    batchInsert fuel table (JArr (x :: xs)) batchSize ch
    = Some (Fulfilled (batch_result (length (x :: xs))
                         ((length (x :: xs) + batchSize - 1) / batchSize)),
            ch')
    /\ insert_calls ch' = insert_calls ch ++ map (pair table) slices
    /\ concat slices = x :: xs
    /\ Forall (fun c => 0 < length c <= batchSize) slices
    /\ stored ch' table = stored ch table ++ x :: xs.
Proof.
  intros Hs Hacc Hfuel.
  destruct (batchInsert_loop_accepted table (x :: xs) batchSize Hs fuel 0 0 0 ch Hacc Hfuel)
    as (ch' & Hl & Hr & Hc).
  cbn [skipn] in *. exists ch', (chunks fuel batchSize (x :: xs)).
  split; [|split; [exact Hc|split; [|split]]].
  - cbn [batchInsert]. rewrite Hl. cbn [Nat.add].
    now rewrite (chunks_length batchSize Hs fuel (x :: xs) Hfuel).
  - now apply chunks_concat.
  - now apply chunks_bounds.
  - now apply stored_rows_app.
Qed.

Lemma batchInsert_slices_witness :
  exists ch',
    batchInsert 5 "page_views"
      (JArr [JNum 1; JNum 2; JNum 3; JNum 4; JNum 5]) 2 (empty_clickhouse [])
    = Some (Fulfilled (batch_result 5 3), ch')
    /\ insert_calls ch'
       = [("page_views", [JNum 1; JNum 2]); ("page_views", [JNum 3; JNum 4]);
          ("page_views", [JNum 5])].
Proof.
  destruct (batchInsert_slices 5 "page_views" (JNum 1) [JNum 2; JNum 3; JNum 4; JNum 5]
              2 (empty_clickhouse []) (Nat.lt_0_succ 1)
              (fun m t (H : In (Reject m t) []) => H) (Nat.le_refl 5))
    as (ch' & slices & H & _).
  exists ch'. split; [exact H|].
  vm_compute in H. injection H as <-. reflexivity.
Defined.

(** X2. [batchInsert] ignores what is not a non-empty array: it reports zero
    records in zero batches and calls nothing, also for a single record, which
    [insertData] would have wrapped in an array and sent. *)
Theorem batchInsert_ignores_non_array (fuel : nat) (table : string) (data : JsVal)
    (batchSize : nat) (ch : ClickHouse) :
  nonempty_array data = false ->
  batchInsert fuel table data batchSize ch = Some (Fulfilled (batch_result 0 0), ch)
  /\ ((forall items, data <> JArr items) ->
      insert_calls (snd (insertData table data ch)) = insert_calls ch ++ [(table, [data])]).
Proof.
  intros Hn. split.
  - destruct data as [| | | | |[|x xs]|]; try reflexivity. discriminate.
  - intros Hd.
    assert (E : insertData table data ch
                = match clickhouse_insert table [data] ch with
                  | (Fulfilled _, ch') =>
                      (Fulfilled (JObj [("success", JBool true);
                                        ("inserted", js_length [data])]), ch')
                  | (Rejected e t, ch') => (Rejected e t, ch')
                  end).
    { destruct data as [| | | | |items|]; try reflexivity. now destruct (Hd items). }
    rewrite E. pose proof (clickhouse_insert_calls table [data] ch) as H.
    destruct (clickhouse_insert table [data] ch) as [[u|e t] ch']; exact H.
Qed.

Lemma batchInsert_ignores_non_array_witness :
  batchInsert 0 "page_views" (sample_event "page_view" "e-1") 1000 (empty_clickhouse [])
  = Some (Fulfilled (batch_result 0 0), empty_clickhouse [])
  /\ insert_calls (snd (insertData "page_views" (sample_event "page_view" "e-1")
                          (empty_clickhouse [])))
     = [("page_views", [sample_event "page_view" "e-1"])].
Proof.
  destruct (batchInsert_ignores_non_array 0 "page_views" (sample_event "page_view" "e-1")
              1000 (empty_clickhouse []) eq_refl) as [H1 H2].
  split; [exact H1|]. apply H2. intros items. discriminate.
Defined.

Lemma firstn_add_skipn {A} (a b : nat) (l : list A) :
  firstn (a + b) l = firstn a l ++ firstn b (skipn a l).
Proof.
  revert l. induction a as [|a IH]; intros l; [reflexivity|].
  destruct l as [|x l]; cbn; [now rewrite firstn_nil | now rewrite IH].
Qed.

(** The loop on a server that accepts [k] inserts and rejects the next. *)
Lemma batchInsert_loop_rejected table dataArray size m t rest :
  0 < size ->
  forall k fuel i totalInserted batchCount ch,
    faults ch = repeat Accept k ++ Reject m t :: rest ->
    i + k * size < length dataArray ->
    k < fuel ->
    exists ch',
      batchInsert_loop fuel table dataArray size i totalInserted batchCount ch
      = Some (Rejected (StoreError m) t, ch')
      /\ rows ch' = rows ch ++ map (pair table) (firstn (k * size) (skipn i dataArray))
      /\ length (insert_calls ch') = length (insert_calls ch) + S k
      /\ faults ch' = rest.
Proof.
  intros Hs. induction k as [|k IH]; intros fuel i tot cnt ch Hf Hi Hfuel;
    (destruct fuel as [|fuel]; [lia|]); cbn [batchInsert_loop];
    (assert (Hlt : Nat.ltb i (length dataArray) = true) by (apply Nat.ltb_lt; lia));
    rewrite Hlt;
    (destruct (skipn i dataArray) as [|x xs] eqn:E;
     [pose proof (length_skipn i dataArray) as L; rewrite E in L; cbn in L; lia|]);
    destruct (firstn_nonempty size x xs Hs) as (y & ys & Ey); cbn zeta; rewrite Ey.
  - assert (Hn : next_outcome ch = Reject m t) by (unfold next_outcome; now rewrite Hf).
    rewrite (insertData_reject _ _ _ _ _ _ Hn). eexists. split; [reflexivity|].
    cbn [rows insert_calls faults firstn map Nat.mul]. rewrite app_nil_r, length_app, Hf.
    cbn. repeat split.
  - assert (Hn : next_outcome ch = Accept) by (unfold next_outcome; now rewrite Hf).
    rewrite (insertData_accept _ _ _ _ Hn).
    set (ch1 := {| rows := rows ch ++ map (pair table) (y :: ys);
                   insert_calls := insert_calls ch ++ [(table, y :: ys)];
                   faults := tl (faults ch); answer := answer ch |}).
    assert (Hf1 : faults ch1 = repeat Accept k ++ Reject m t :: rest)
      by (cbn [faults ch1]; now rewrite Hf).
    destruct (IH fuel (i + size) (tot + length (y :: ys)) (S cnt) ch1 Hf1)
      as (ch' & -> & Hr & Hc & Hfs); [cbn [Nat.mul] in Hi; lia | lia |].
    exists ch'. split; [reflexivity|]. split; [|split; [|exact Hfs]].
    + rewrite Hr. cbn [rows ch1]. rewrite <- app_assoc, <- map_app.
      replace (S k * size) with (size + k * size) by (cbn; lia).
      rewrite firstn_add_skipn, Ey.
      now rewrite <- E, skipn_skipn, (Nat.add_comm size i).
    + rewrite Hc. cbn [insert_calls ch1]. rewrite length_app. cbn. lia.
Qed.

(** X3. [batchInsert] is not all or nothing. When the server accepts [k]
    inserts and rejects the next, and the array has more than [k] batches,
    [batchInsert] throws the error of the server after [k + 1] insert calls:
    the first [k * batchSize] records are in the table and stay there, and
    the rest of the array is never sent. *)
Theorem batchInsert_partial (fuel : nat) (table : string) (dataArray : list JsVal)
    (batchSize k : nat) (ch : ClickHouse) (m : string) (t : nat)
    (rest : list InsertOutcome) :
  0 < batchSize ->
  faults ch = repeat Accept k ++ Reject m t :: rest ->
  k * batchSize < length dataArray ->
  k < fuel ->
  exists ch',
    batchInsert fuel table (JArr dataArray) batchSize ch
    = Some (Rejected (StoreError m) t, ch')
    /\ stored ch' table = stored ch table ++ firstn (k * batchSize) dataArray
    /\ length (insert_calls ch') = length (insert_calls ch) + S k.
Proof.
  intros Hs Hf Hk Hfuel.
  destruct (batchInsert_loop_rejected table dataArray batchSize m t rest Hs
              k fuel 0 0 0 ch Hf Hk Hfuel) as (ch' & Hl & Hr & Hc & _).
  exists ch'. cbn [skipn] in Hr. split; [|split; [now apply stored_rows_app | exact Hc]].
  destruct dataArray as [|x xs]; [cbn in Hk; lia | exact Hl].
Qed.

Lemma batchInsert_partial_witness :
  exists ch',
    batchInsert 3 "page_views" (JArr [JNum 1; JNum 2; JNum 3; JNum 4; JNum 5]) 2
      (empty_clickhouse [Accept; Reject "ETIMEDOUT" 7])
    = Some (Rejected (StoreError "ETIMEDOUT") 7, ch')
    /\ stored ch' "page_views" = [JNum 1; JNum 2]
    /\ length (insert_calls ch') = 2.
Proof.
  apply (batchInsert_partial 3 "page_views" [JNum 1; JNum 2; JNum 3; JNum 4; JNum 5]
           2 1 (empty_clickhouse [Accept; Reject "ETIMEDOUT" 7]) "ETIMEDOUT" 7 []);
    cbn; lia || reflexivity.
Defined.



(** * Properties of start-up, health and custom reports *)

Lemma post_events_flag rt srv req_body :
  clickhouseConnected (snd (post_events rt srv req_body)) = clickhouseConnected srv.
Proof.
  destruct (post_events_cases rt srv req_body)
    as [(e & _ & ->)|[(v & _ & _ & ->)|[(ev & rest & _ & _ & ->)|
        [(ev & rest & e & _ & _ & _ & ->)|(ev & rest & b & Hb & Hc & Hf)]]]];
    try reflexivity.
  now rewrite (post_events_run _ _ _ _ _ _ Hb Hc Hf).
Qed.

Lemma post_events_disconnected rt srv req_body :
  clickhouseConnected srv = false -> snd (post_events rt srv req_body) = srv.
Proof.
  intros Hd.
  destruct (post_events_cases rt srv req_body)
    as [(e & _ & ->)|[(v & _ & _ & ->)|[(ev & rest & _ & _ & ->)|
        [(ev & rest & e & _ & _ & _ & ->)|(ev & rest & b & Hb & Hc & Hf)]]]];
    try reflexivity.
  congruence.
Qed.

(** X5. No request to the event tracking endpoint changes
    [clickhouseConnected]: after any sequence of requests the flag is what
    the connection test at start-up made it, whatever the server has
    answered to the inserts in between. *)
Theorem connection_flag_frozen (rt : Runtime) (ch : ClickHouse) (reqs : list JsVal) :
  clickhouseConnected (serve_events rt (initializeClickHouse ch) reqs) = testConnection ch.
Proof.
  change (testConnection ch) with (clickhouseConnected (initializeClickHouse ch)).
  generalize (initializeClickHouse ch) as srv.
  induction reqs as [|req_body rest IH]; intros srv; [reflexivity|].
  cbn [serve_events]. now rewrite IH, post_events_flag.
Qed.

(** X6. When the connection test fails at start-up, the event tracking
    endpoint never reaches the server again: every non-empty events array is
    answered [200] with ['Events queued for processing'], and after any
    sequence of requests the state is the one at start-up: no insert call
    was made and nothing was kept of the events. *)
Theorem failed_start_drops_events (rt : Runtime) (ch : ClickHouse) (reqs : list JsVal) :
  testConnection ch = false ->
  serve_events rt (initializeClickHouse ch) reqs = initializeClickHouse ch
  /\ insert_calls (clickhouse (serve_events rt (initializeClickHouse ch) reqs))
     = insert_calls ch
  /\ (forall req_body event rest,
        get_prop req_body "events" = Ok (JArr (event :: rest)) ->
        fst (post_events rt (initializeClickHouse ch) req_body)
        = events_queued (event :: rest)).
Proof.
  intros Ht.
  assert (Hd : clickhouseConnected (initializeClickHouse ch) = false) by exact Ht.
  assert (E : serve_events rt (initializeClickHouse ch) reqs = initializeClickHouse ch).
  { revert Hd. generalize (initializeClickHouse ch) as srv.
    induction reqs as [|req_body rest IH]; intros srv Hd; [reflexivity|].
    cbn [serve_events]. rewrite (post_events_disconnected _ _ _ Hd). now apply IH. }
  split; [exact E|]. split; [now rewrite E|].
  intros req_body event rest Hb. unfold post_events. now rewrite Hb, Hd.
Qed.

Lemma failed_start_drops_events_witness :
  let ch := querying_clickhouse (fun _ => Rejected (StoreError "ECONNREFUSED") 0) in
  serve_events sample_runtime (initializeClickHouse ch)
    [events_request [sample_event "page_view" "e-1"];
     events_request [sample_event "search" "e-2"]]
  = initializeClickHouse ch.
Proof.
  exact (proj1 (failed_start_drops_events sample_runtime
                  (querying_clickhouse (fun _ => Rejected (StoreError "ECONNREFUSED") 0))
                  [events_request [sample_event "page_view" "e-1"];
                   events_request [sample_event "search" "e-2"]] eq_refl)).
Defined.

(** X7. The health endpoint answers [200] with [status: 'healthy'] in every
    case. When ClickHouse is connected and the query of the last hour fails,
    the body gets a [clickhouse_status] with the message of the error and no
    [recent_activity]; when the query answers no row, [recent_activity] is
    all zeros. *)
Theorem health_always_healthy (rt : Runtime) (uptime : JsVal) (srv : Server) :
  status (get_health rt uptime srv) = 200
  /\ prop (body (get_health rt uptime srv)) "status" = JStr "healthy"
  /\ (forall e t,
        clickhouseConnected srv = true ->
        getRealTimeMetrics rt (clickhouse srv) (JStr "1 HOUR") = Rejected e t ->
        prop (body (get_health rt uptime srv)) "clickhouse_status"
        = JObj [("connection_status", JStr "error"); ("error", JStr (error_message e))]
        /\ prop (body (get_health rt uptime srv)) "recent_activity" = JUndefined)
  /\ (clickhouseConnected srv = true ->
      getRealTimeMetrics rt (clickhouse srv) (JStr "1 HOUR") = Fulfilled [] ->
      prop (body (get_health rt uptime srv)) "recent_activity"
      = JObj [("last_hour_page_views", JNum 0); ("unique_sessions", JNum 0);
              ("data_points", JNum 0)]).
Proof.
  split; [reflexivity|]. split; [|split].
  - unfold get_health. destruct (clickhouseConnected srv); [|reflexivity].
    destruct (getRealTimeMetrics rt (clickhouse srv) (JStr "1 HOUR")) as [rm|e t];
      [|reflexivity].
    destruct (bind _ _); reflexivity.
  - intros e t Hc Hr. unfold get_health. rewrite Hc, Hr. split; reflexivity.
  - intros Hc Hr. unfold get_health. rewrite Hc, Hr. reflexivity.
Qed.

Lemma health_always_healthy_witness :
  prop (body (get_health sample_runtime (JNum 12) strict_server)) "recent_activity"
  = JObj [("last_hour_page_views", JNum 0); ("unique_sessions", JNum 0);
          ("data_points", JNum 0)].
Proof.
  exact (proj2 (proj2 (proj2 (health_always_healthy sample_runtime (JNum 12) strict_server)))
           eq_refl eq_refl).
Defined.

(** X8. The custom reports endpoint never succeeds. Without a [query] it
    answers 400, without ClickHouse 503, and otherwise the call of
    [executeQuery], a name that the file does not import, throws and the
    answer is 500 with ['executeQuery is not defined']: no status is 200. *)
Theorem reports_never_succeed (srv : Server) (req_body : JsVal) :
  (status (post_reports srv req_body) = 400
   \/ status (post_reports srv req_body) = 503
   \/ status (post_reports srv req_body) = 500)
  /\ status (post_reports srv req_body) <> 200
  /\ prop (body (post_reports srv req_body)) "success" = JBool false
  /\ (forall query,
        get_prop req_body "query" = Ok query ->
        truthy query = true ->
        clickhouseConnected srv = true ->
        post_reports srv req_body = reports_failed "executeQuery is not defined").
Proof.
  unfold post_reports.
  destruct (get_prop req_body "query") as [query|e].
  - destruct (truthy query) eqn:Et; cbn [negb].
    + destruct (clickhouseConnected srv) eqn:Ec; cbn [negb].
      * repeat split; auto; discriminate.
      * repeat split; auto; discriminate.
    + repeat split; auto; try discriminate. intros q [= <-] H. congruence.
  - repeat split; auto; discriminate.
Qed.

Lemma reports_never_succeed_witness :
  post_reports (connected_server []) (JObj [("query", JStr "SELECT count() FROM page_views")])
  = reports_failed "executeQuery is not defined".
Proof.
  exact (proj2 (proj2 (proj2
           (reports_never_succeed (connected_server [])
              (JObj [("query", JStr "SELECT count() FROM page_views")]))))
           (JStr "SELECT count() FROM page_views") eq_refl eq_refl eq_refl).
Defined.

(** * Properties of the timestamp format *)

Lemma str_replace_skip c r a b :
  lacks c a -> str_replace c r (a ++ b)%string = (a ++ str_replace c r b)%string.
Proof.
  unfold lacks. induction a as [|x a IH]; cbn; [reflexivity|].
  destruct (Ascii.eqb x c); [discriminate|]. intros H. now rewrite IH.
Qed.

Lemma str_split_head_stop c a b :
  lacks c a -> str_split_head c (a ++ String c b)%string = a.
Proof.
  unfold lacks. induction a as [|x a IH]; cbn.
  - now rewrite Ascii.eqb_refl.
  - destruct (Ascii.eqb x c); [discriminate|]. intros H. now rewrite IH.
Qed.

Lemma str_split_head_all c a : lacks c a -> str_split_head c a = a.
Proof.
  unfold lacks. induction a as [|x a IH]; cbn; [reflexivity|].
  destruct (Ascii.eqb x c); [discriminate|]. intros H. now rewrite IH.
Qed.

Lemma str_includes_app c a b :
  str_includes c (a ++ b)%string = str_includes c a || str_includes c b.
Proof.
  induction a as [|x a IH]; cbn; [reflexivity|]. now destruct (Ascii.eqb x c).
Qed.

Lemma lacks_app c a b : lacks c a -> lacks c b -> lacks c (a ++ b)%string.
Proof. unfold lacks. intros Ha Hb. now rewrite str_includes_app, Ha, Hb. Qed.

Lemma str_replace_here c r b : str_replace c r (String c b) = (r ++ b)%string.
Proof. cbn. now rewrite Ascii.eqb_refl. Qed.

Lemma str_app_assoc (a b c : string) : ((a ++ b) ++ c = a ++ (b ++ c))%string.
Proof. induction a as [|x a IH]; cbn; [reflexivity | now rewrite IH]. Qed.

Lemma str_replace_last c a :
  lacks c a -> str_replace c "" (a ++ String c "")%string = a.
Proof.
  intros H. rewrite (str_replace_skip c "" a _ H), str_replace_here. cbn [append].
  clear. induction a as [|x a IH]; cbn; [reflexivity | now rewrite IH].
Qed.

Lemma str_replace_next c r x s :
  Ascii.eqb x c = false -> str_replace c r (String x s) = String x (str_replace c r s).
Proof. intros H. cbn [str_replace]. now rewrite H. Qed.

Lemma lacks_spaced c date time :
  Ascii.eqb " " c = false -> lacks c date -> lacks c time ->
  lacks c (date ++ String " " time)%string.
Proof.
  intros Hc H1 H2. apply lacks_app; [exact H1|]. unfold lacks. cbn [str_includes].
  now rewrite Hc.
Qed.

Ltac str_norm := repeat (rewrite ?str_app_assoc; cbn [append]); try reflexivity.

(** X9. An ISO timestamp, [date], ['T'], [time], then either ['Z'] or a
    fraction and ['Z'], is stored as [date], a space, [time]: the DateTime
    text of ClickHouse. The date is any text without ['T'], ['Z'] and ['.'],
    the time any text without ['Z'] and ['.']; the fraction is dropped
    whatever it is. *)
Theorem format_timestamp_iso (date time fraction : string) :
  lacks "T" date -> lacks "Z" date -> lacks "." date ->
  lacks "Z" time -> lacks "." time ->
  format_timestamp (JStr (date ++ "T" ++ time ++ "Z")%string)
  = Ok (JStr (date ++ " " ++ time)%string)
  /\ format_timestamp (JStr (date ++ "T" ++ time ++ "." ++ fraction ++ "Z")%string)
     = Ok (JStr (date ++ " " ++ time)%string).
Proof.
  intros HdT HdZ Hdd HtZ Htd. cbn [append].
  pose proof (lacks_spaced "Z" date time eq_refl HdZ HtZ) as HZ.
  pose proof (lacks_spaced "." date time eq_refl Hdd Htd) as Hdot.
  assert (Hin : forall rest, str_includes "T" (date ++ String "T" rest)%string = true)
    by (intros rest; rewrite str_includes_app; cbn; apply orb_true_r).
  assert (Hz : forall a, str_includes "Z" (a ++ "Z")%string = true)
    by (intros a; rewrite str_includes_app; cbn; apply orb_true_r).
  split; cbn [format_timestamp]; rewrite Hin.
  - replace (date ++ String "T" (time ++ "Z"))%string
      with ((date ++ String "T" time) ++ "Z")%string
      by str_norm.
    rewrite Hz. cbn [andb]. do 2 f_equal. str_norm.
    rewrite (str_replace_skip "T" " " _ _ HdT), str_replace_here. cbn [append].
    replace (date ++ String " " (time ++ "Z"))%string
      with ((date ++ String " " time) ++ String "Z" "")%string
      by str_norm.
    rewrite (str_replace_last _ _ HZ). now apply str_split_head_all.
  - replace (date ++ String "T" (time ++ String "." (fraction ++ "Z")))%string
      with ((date ++ String "T" (time ++ String "." fraction)) ++ "Z")%string
      by str_norm.
    rewrite Hz. cbn [andb]. do 2 f_equal. str_norm.
    rewrite (str_replace_skip "T" " " _ _ HdT), str_replace_here. cbn [append].
    replace (date ++ String " " (time ++ String "." (fraction ++ "Z")))%string
      with ((date ++ String " " time) ++ String "." (fraction ++ "Z"))%string
      by str_norm.
    rewrite (str_replace_skip "Z" "" _ _ HZ), str_replace_next by reflexivity.
    now apply str_split_head_stop.
Qed.

Lemma format_timestamp_iso_witness :
  format_timestamp (JStr "2024-05-01T09:59:58.120Z") = Ok (JStr "2024-05-01 09:59:58").
Proof.
  exact (proj2 (format_timestamp_iso "2024-05-01" "09:59:58" "120"
                  eq_refl eq_refl eq_refl eq_refl eq_refl)).
Defined.

(** * More properties of the event loop *)

Lemma format_timestamp_string s : exists s', format_timestamp (JStr s) = Ok (JStr s').
Proof.
  cbn [format_timestamp]. destruct (str_includes "T" s && str_includes "Z" s); eauto.
Qed.

Lemma breaks_loop_read event t :
  get_prop event "timestamp" = Ok t ->
  breaks_loop event
  = truthy t && match format_timestamp t with Throw _ => true | Ok _ => false end.
Proof.
  destruct event; cbn [get_prop]; try discriminate; intros [= <-]; reflexivity.
Qed.

Lemma breaks_loop_nullish event e :
  get_prop event "timestamp" = Throw e -> breaks_loop event = true.
Proof. destruct event; cbn [get_prop]; try discriminate; reflexivity. Qed.

(** A turn of the loop goes through exactly for the events that do not
    break it. *)
Lemma process_event_breaks rt b event :
  (exists b', process_event rt b event = Ok b') <-> breaks_loop event = false.
Proof.
  unfold process_event, read_timestamp.
  destruct (get_prop event "timestamp") as [t|e] eqn:Eg; cbn [bind].
  - rewrite (breaks_loop_read _ _ Eg).
    destruct (truthy t); cbn [bind fst snd andb].
    + destruct (format_timestamp t) as [ts|e]; cbn [bind].
      * split; [reflexivity|intros _].
        destruct (read_event_id rt b event) as [id b2].
        destruct (switch_event_type event); eauto.
      * split; [intros [b' H]; discriminate | discriminate].
    + destruct (format_timestamp_string (now_iso rt (clock_reads b))) as (s' & ->).
      cbn [bind]. split; [reflexivity|intros _].
      destruct (read_event_id rt (tick_clock b) event) as [id b2].
      destruct (switch_event_type event); eauto.
  - rewrite (breaks_loop_nullish _ _ Eg).
    split; [intros [b' H]; discriminate | discriminate].
Qed.

Lemma forEach_breaks rt events :
  forall b, (exists b', forEach rt b events = Ok b') <-> existsb breaks_loop events = false.
Proof.
  induction events as [|event rest IH]; intros b; cbn [forEach existsb].
  - split; eauto.
  - rewrite orb_false_iff, <- (process_event_breaks rt b event). split.
    + intros [b' H]. destruct (process_event rt b event) as [b1|e]; [|discriminate].
      split; [eauto|]. apply (IH b1). eauto.
    + intros [[b1 H1] H2]. rewrite H1. cbn [bind]. now apply IH.
Qed.

(** X10. One bad event fails the whole request. The loop over the events
    goes through exactly when no event is [null] and no event has a truthy
    [timestamp] that is a number, [true], an object, or an array with ['T']
    and ['Z']; otherwise the answer is 500 and the server is left as it was:
    no event of the request is inserted, the well-formed ones included. *)
Theorem bad_event_fails_request (rt : Runtime) (srv : Server) (req_body event : JsVal)
    (rest : list JsVal) :
  get_prop req_body "events" = Ok (JArr (event :: rest)) ->
  clickhouseConnected srv = true ->
  (existsb breaks_loop (event :: rest) = true ->
   exists e, post_events rt srv req_body = (events_failed e, srv))
  /\ (existsb breaks_loop (event :: rest) = false ->
      exists b, forEach rt empty_buffers (event :: rest) = Ok b).
Proof.
  intros Hb Hc. split; intros H.
  - destruct (forEach rt empty_buffers (event :: rest)) as [b|e] eqn:Hf.
    + assert (Hn : existsb breaks_loop (event :: rest) = false)
        by (apply (forEach_breaks rt _ empty_buffers); eauto).
      congruence.
    + exists e. now apply post_events_loop_throws with (event := event) (rest := rest).
  - now apply (forEach_breaks rt (event :: rest) empty_buffers).
Qed.

Lemma bad_event_fails_request_witness :
  exists e,
    post_events sample_runtime (connected_server [])
      (events_request [sample_event "page_view" "e-1"; JNull])
    = (events_failed e, connected_server []).
Proof.
  exact (proj1 (bad_event_fails_request sample_runtime (connected_server [])
                  (events_request [sample_event "page_view" "e-1"; JNull])
                  (sample_event "page_view" "e-1") [JNull] eq_refl eq_refl) eq_refl).
Defined.

Lemma get_prop_ok v key t : get_prop v key = Ok t -> t = prop v key.
Proof. destruct v; cbn [get_prop]; try discriminate; now intros [= <-]. Qed.

Lemma process_event_counters rt b event b' :
  process_event rt b event = Ok b' ->
  uuid_calls b' = uuid_calls b + (if truthy (prop event "event_id") then 0 else 1)
  /\ clock_reads b' = clock_reads b + (if truthy (prop event "timestamp") then 0 else 1).
Proof.
  unfold process_event, read_timestamp, read_event_id.
  destruct (get_prop event "timestamp") as [t|e] eqn:Eg; cbn [bind]; [|discriminate].
  pose proof (get_prop_ok event "timestamp" t Eg) as Ht. rewrite <- Ht.
  destruct (truthy t); cbn [bind fst snd];
    (match goal with
     | |- context [format_timestamp ?x] => destruct (format_timestamp x) as [ts|e]
     end; cbn [bind]; [|discriminate]);
    destruct (truthy (prop event "event_id"));
    destruct (switch_event_type event) as [k|]; intros [= <-];
    try destruct k; cbn; lia.
Qed.

(** X11. The loop reads the uuid generator once for every event without a
    truthy [event_id] and the clock once for every event without a truthy
    [timestamp], and for no other: events that the [switch] sends nowhere
    count as well. *)
Theorem generated_ids_and_times (rt : Runtime) (events : list JsVal) (b : Buffers) :
  forEach rt empty_buffers events = Ok b ->
  uuid_calls b = without_event_id events
  /\ clock_reads b = without_timestamp events.
Proof.
  change (without_event_id events) with (uuid_calls empty_buffers + without_event_id events).
  change (without_timestamp events)
    with (clock_reads empty_buffers + without_timestamp events).
  generalize empty_buffers as b0. revert b.
  induction events as [|event rest IH]; intros b b0 H.
  - injection H as <-. unfold without_event_id, without_timestamp. cbn. lia.
  - apply forEach_cons in H as (b1 & H1 & H2).
    destruct (process_event_counters _ _ _ _ H1) as [Hu Hc].
    destruct (IH _ _ H2) as [Hu' Hc']. rewrite Hu', Hc', Hu, Hc.
    unfold without_event_id, without_timestamp. cbn [filter].
    destruct (truthy (prop event "event_id")), (truthy (prop event "timestamp"));
      cbn [negb length]; lia.
Qed.

Lemma generated_ids_and_times_witness :
  exists b,
    forEach sample_runtime empty_buffers
      [sample_event "page_view" "e-1"; JObj [("event_type", JStr "bogus")]] = Ok b
    /\ uuid_calls b = 1 /\ clock_reads b = 1.
Proof.
  destruct (forEach sample_runtime empty_buffers
              [sample_event "page_view" "e-1"; JObj [("event_type", JStr "bogus")]])
    as [b|e] eqn:Hf; [|vm_compute in Hf; discriminate].
  exists b. split; [reflexivity|].
  exact (generated_ids_and_times sample_runtime _ b Hf).
Defined.

Lemma positions_skipped events :
  forall i,
    length (positions PageView i events) + length (positions GameInteraction i events)
    + length (positions Search i events) + length (positions Performance i events)
    + length (skipped events) = length events.
Proof.
  induction events as [|event rest IH]; intros i; cbn [positions length skipped filter];
    [reflexivity|].
  specialize (IH (S i)). unfold skipped in IH. unfold has_kind.
  destruct (switch_event_type event) as [[]|]; cbn [Kind_eqb length]; lia.
Qed.

(** X12. In the answer to a request that went through the loop, [total]
    is the sum of the four counts and of the number of events that the
    [switch] sent nowhere: what is missing from the counts was skipped. *)
Theorem processed_counts_account (rt : Runtime) (events : list JsVal) (b : Buffers) :
  forEach rt empty_buffers events = Ok b ->
  length (pageViews b) + length (gameInteractions b) + length (searchEvents b)
  + length (performanceMetrics b) + length (skipped events) = length events
  /\ processed_counts events b
     = JObj [("total", JNum (Z.of_nat (length events)));
             ("page_views", JNum (Z.of_nat (length (positions PageView 0 events))));
             ("game_interactions",
              JNum (Z.of_nat (length (positions GameInteraction 0 events))));
             ("search_events", JNum (Z.of_nat (length (positions Search 0 events))));
             ("performance_metrics",
              JNum (Z.of_nat (length (positions Performance 0 events))))].
Proof.
  intros Hf.
  pose proof (fun k => Forall2_length (forEach_from_empty rt k events b Hf)) as L.
  pose proof (L PageView) as L1. pose proof (L GameInteraction) as L2.
  pose proof (L Search) as L3. pose proof (L Performance) as L4.
  cbn [batch] in L1, L2, L3, L4. split.
  - rewrite <- L1, <- L2, <- L3, <- L4. apply positions_skipped.
  - unfold processed_counts, js_length. now rewrite L1, L2, L3, L4.
Qed.

Lemma processed_counts_account_witness :
  exists b,
    forEach sample_runtime empty_buffers
      [sample_event "page_view" "e-1"; sample_event "bogus" "e-2"] = Ok b
    /\ length (pageViews b) + length (gameInteractions b) + length (searchEvents b)
       + length (performanceMetrics b) + 1 = 2.
Proof.
  destruct (forEach sample_runtime empty_buffers
              [sample_event "page_view" "e-1"; sample_event "bogus" "e-2"])
    as [b|e] eqn:Hf; [|vm_compute in Hf; discriminate].
  exists b. split; [reflexivity|].
  exact (proj1 (processed_counts_account sample_runtime _ b Hf)).
Defined.

(** * Inserts of one request *)

Lemma stored_tagged table tbl (xs : list JsVal) :
  map snd (filter (fun r => fst r =? tbl) (map (pair table) xs))
  = if table =? tbl then xs else [].
Proof.
  destruct (table =? tbl) eqn:E.
  - apply String.eqb_eq in E. subst tbl. apply stored_own_rows.
  - induction xs as [|x xs IH]; cbn; [reflexivity|]. now rewrite E.
Qed.

Lemma table_name_eqb k1 k2 : (table_name k1 =? table_name k2) = Kind_eqb k1 k2.
Proof. now destruct k1, k2. Qed.

Lemma push_insert_stored k' b acc tbl :
  stored (snd (push_insert k' b acc)) tbl
  = stored (snd acc) tbl
    ++ (if table_name k' =? tbl
        then match next_outcome (snd acc) with
             | Accept => batch k' b
             | Reject _ _ => []
             end
        else []).
Proof.
  unfold push_insert. destruct (batch k' b) as [|x xs] eqn:E.
  - destruct (table_name k' =? tbl), (next_outcome (snd acc)); now rewrite app_nil_r.
  - destruct (next_outcome (snd acc)) as [|m t] eqn:En.
    + rewrite (insertData_accept _ _ _ _ En). cbn [snd].
      now rewrite stored_app, stored_tagged.
    + rewrite (insertData_reject _ _ _ _ _ _ En). cbn [snd]. unfold stored. cbn [rows].
      destruct (table_name k' =? tbl); now rewrite app_nil_r.
Qed.

Lemma push_insert_faults k' b acc :
  faults (snd (push_insert k' b acc))
  = if negb (Nat.eqb (length (batch k' b)) 0) then tl (faults (snd acc))
    else faults (snd acc).
Proof.
  unfold push_insert. destruct (batch k' b) as [|x xs] eqn:E; [reflexivity|].
  cbn [length Nat.eqb negb].
  destruct (next_outcome (snd acc)) as [|m t] eqn:En.
  - now rewrite (insertData_accept _ _ _ _ En).
  - now rewrite (insertData_reject _ _ _ _ _ _ En).
Qed.

Lemma insert_batches_stored k b ch :
  stored (snd (insert_batches b ch)) (table_name k)
  = stored ch (table_name k)
    ++ match nth (call_rank k b) (faults ch) Accept with
       | Accept => batch k b
       | Reject _ _ => []
       end.
Proof.
  unfold insert_batches. rewrite !push_insert_stored, !table_name_eqb.
  unfold next_outcome. rewrite !push_insert_faults. cbn [snd]. unfold call_rank.
  destruct k; cbn [Kind_eqb filter]; rewrite ?app_nil_r;
    destruct (negb (length (batch PageView b) =? 0)%nat);
    destruct (negb (length (batch GameInteraction b) =? 0)%nat);
    destruct (negb (length (batch Search b) =? 0)%nat);
    cbn [length];
    destruct (faults ch) as [|o1 [|o2 [|o3 [|o4 rest]]]]; reflexivity.
Qed.

(** X13. The inserts of a request are not all or nothing. Each non-empty
    array is sent in its own call, which the server accepts or rejects on
    its own: after the request, the table of a kind holds the rows of that
    kind exactly when the server accepted their call, whatever became of the
    other calls and whether the answer is 200 or 500. *)
Theorem inserts_not_atomic (rt : Runtime) (srv : Server) (req_body event : JsVal)
    (rest : list JsVal) (b : Buffers) (k : Kind) :
  get_prop req_body "events" = Ok (JArr (event :: rest)) ->
  clickhouseConnected srv = true ->
  forEach rt empty_buffers (event :: rest) = Ok b ->
  stored (clickhouse (snd (post_events rt srv req_body))) (table_name k)
  = stored (clickhouse srv) (table_name k)
    ++ match nth (call_rank k b) (faults (clickhouse srv)) Accept with
       | Accept => batch k b
       | Reject _ _ => []
       end.
Proof.
  intros Hb Hc Hf. rewrite (post_events_run _ _ _ _ _ _ Hb Hc Hf). cbn [snd clickhouse].
  apply insert_batches_stored.
Qed.

Lemma inserts_not_atomic_witness :
  let h := post_events sample_runtime (connected_server [Reject "page_views is read-only" 2])
             (events_request [sample_event "page_view" "e-1"; sample_event "search" "e-2"]) in
  status (fst h) = 500
  /\ stored (clickhouse (snd h)) "page_views" = []
  /\ length (stored (clickhouse (snd h)) "search_events") = 1.
Proof.
  intros h.
  destruct (forEach sample_runtime empty_buffers
              [sample_event "page_view" "e-1"; sample_event "search" "e-2"])
    as [b|e] eqn:Hf; [|vm_compute in Hf; discriminate].
  pose proof (inserts_not_atomic sample_runtime
                (connected_server [Reject "page_views is read-only" 2])
                (events_request [sample_event "page_view" "e-1"; sample_event "search" "e-2"])
                (sample_event "page_view" "e-1") [sample_event "search" "e-2"] b Search
                eq_refl eq_refl Hf) as H.
  vm_compute in Hf. injection Hf as <-.
  split; [reflexivity|]. split; [reflexivity|].
  change (table_name Search) with "search_events" in H. unfold h. now rewrite H.
Defined.

(** * More properties of the dashboard endpoint *)

(** X14. A dashboard that is answered with 200 carries at most 60 rows of
    real-time metrics, 10 top games and 7 days of daily metrics, and echoes
    the range it was asked for, ['24 HOUR'] when none was given. *)
Theorem dashboard_lists_bounded (rt : Runtime) (srv : Server)
    (req_query : list (string * JsVal)) :
  status (get_dashboard rt srv req_query) = 200 ->
  exists realtime games daily,
    prop (prop (body (get_dashboard rt srv req_query)) "data") "realtime_metrics"
    = JArr realtime
    /\ prop (prop (body (get_dashboard rt srv req_query)) "data") "top_games" = JArr games
    /\ prop (prop (body (get_dashboard rt srv req_query)) "data") "daily_metrics"
       = JArr daily
    /\ length realtime <= 60 /\ length games <= 10 /\ length daily <= 7
    /\ prop (prop (body (get_dashboard rt srv req_query)) "data") "timeRange"
       = default_to (lookup "timeRange" req_query) (JStr "24 HOUR").
Proof.
  destruct (get_dashboard_cases rt srv req_query)
    as [->|[(e & ->)|(sm & rm & gp & cf & ub & ->)]]; try discriminate.
  intros _. exists (firstn 60 rm), (firstn 10 gp), (firstn 7 ub).
  repeat split; apply firstn_le_length.
Qed.

Lemma dashboard_lists_bounded_witness :
  exists realtime games daily,
    prop (prop (body (get_dashboard sample_runtime quiet_hour_server [])) "data")
         "realtime_metrics" = JArr realtime
    /\ prop (prop (body (get_dashboard sample_runtime quiet_hour_server [])) "data")
            "top_games" = JArr games
    /\ prop (prop (body (get_dashboard sample_runtime quiet_hour_server [])) "data")
            "daily_metrics" = JArr daily
    /\ length realtime <= 60 /\ length games <= 10 /\ length daily <= 7
    /\ prop (prop (body (get_dashboard sample_runtime quiet_hour_server [])) "data")
            "timeRange" = JStr "24 HOUR".
Proof.
  apply (dashboard_lists_bounded sample_runtime quiet_hour_server []). reflexivity.
Defined.

(** * Identifiers in the rows *)

Lemma process_event_row rt b event b' :
  process_event rt b event = Ok b' ->
  exists id ts,
    (truthy (prop event "event_id") = true -> id = prop event "event_id")
    /\ forall k,
         batch k b' = batch k b
           ++ (if has_kind k event
               then [row_of rt k [("event_id", id);
                                  ("session_id", prop event "session_id");
                                  ("user_id", js_or (prop event "user_id") JNull);
                                  ("timestamp", ts)] event]
               else []).
Proof.
  unfold process_event.
  destruct (read_timestamp rt b event) as [[t b1]|] eqn:Et; cbn [bind]; [|discriminate].
  cbn [fst snd].
  destruct (format_timestamp t) as [ts|]; cbn [bind]; [|discriminate].
  pose proof (fun k => batch_read_event_id rt k b1 event) as Eid.
  assert (Hid : truthy (prop event "event_id") = true ->
                fst (read_event_id rt b1 event) = prop event "event_id")
    by (unfold read_event_id; now destruct (truthy (prop event "event_id"))).
  destruct (read_event_id rt b1 event) as [id b2]. cbn [fst snd] in Eid, Hid.
  intros H. exists id, ts. split; [exact Hid|]. intros k. unfold has_kind.
  destruct (switch_event_type event) as [k'|]; injection H as <-.
  - rewrite batch_push, Eid, (batch_read_timestamp _ _ _ _ _ _ Et).
    destruct (Kind_eqb k k') eqn:E; [|reflexivity].
    apply Kind_eqb_eq in E. now subst k'.
  - now rewrite Eid, (batch_read_timestamp _ _ _ _ _ _ Et), app_nil_r.
Qed.

Lemma forEach_carries rt k events :
  forall pre b0 b,
    forEach rt b0 events = Ok b ->
    exists added,
      batch k b = batch k b0 ++ added
      /\ Forall2 (carries k (pre ++ events)) (positions k (length pre) events) added.
Proof.
  induction events as [|event rest IH]; intros pre b0 b H.
  - injection H as <-. exists []. split; [now rewrite app_nil_r | constructor].
  - apply forEach_cons in H as (b1 & H1 & H2).
    destruct (process_event_row _ _ _ _ H1) as (id & ts & Hid & Hb).
    destruct (IH (pre ++ [event]) b1 b H2) as (added & Ha & Hf).
    rewrite <- app_assoc, length_app, Nat.add_1_r in Hf. cbn [app length] in Hf.
    rewrite Ha, Hb, <- app_assoc. eexists. split; [reflexivity|].
    cbn [positions]. destruct (has_kind k event) eqn:Ek; cbn [app]; [|exact Hf].
    constructor; [|exact Hf].
    exists event. split; [now rewrite nth_error_app2, Nat.sub_diag by lia|].
    split; [exact Ek|]. split; [|split].
    + intros Ht. rewrite <- (Hid Ht). now destruct k.
    + intros Hk. destruct k; try reflexivity. now destruct Hk.
    + intros ->. reflexivity.
Qed.

(** X15. The rows keep the identifiers of the client. Every row of the
    array of a kind comes from the event at its index and carries the
    [event_id] of that event whenever the event has a truthy one (under
    [metric_id] for a performance metric); it carries the [session_id] of
    the event as it is, but for a performance metric, whose row has no
    session. *)
Theorem rows_keep_client_ids (rt : Runtime) (events : list JsVal) (b : Buffers) (k : Kind) :
  forEach rt empty_buffers events = Ok b ->
  Forall2 (carries k events) (positions k 0 events) (batch k b).
Proof.
  intros Hf. destruct (forEach_carries rt k events [] empty_buffers b Hf) as (added & Ha & H).
  cbn [app length] in H. replace (batch k b) with added; [exact H|].
  rewrite Ha. now destruct k.
Qed.

Lemma rows_keep_client_ids_witness :
  exists b,
    forEach sample_runtime empty_buffers [sample_event "performance" "m-9"] = Ok b
    /\ Forall2 (carries Performance [sample_event "performance" "m-9"]) [0]
               (performanceMetrics b).
Proof.
  destruct (forEach sample_runtime empty_buffers [sample_event "performance" "m-9"])
    as [b|e] eqn:Hf; [|vm_compute in Hf; discriminate].
  exists b. split; [reflexivity|].
  exact (rows_keep_client_ids sample_runtime [sample_event "performance" "m-9"] b
           Performance Hf).
Defined.

(** * The range and the dashboard *)

Lemma await_all_four (p1 p2 p3 p4 : Settled (list JsVal)) vals :
  await_all [p1; p2; p3; p4] = Ok vals ->
  exists a1 a2 a3 a4,
    p1 = Fulfilled a1 /\ p2 = Fulfilled a2 /\ p3 = Fulfilled a3 /\ p4 = Fulfilled a4
    /\ vals = [a1; a2; a3; a4].
Proof.
  intros H.
  assert (Hno : forall e t, ~ In (Rejected e t) [p1; p2; p3; p4]).
  { intros e t Hin. destruct (await_all_throws _ _ _ Hin) as (e' & t' & _ & Ht).
    congruence. }
  destruct p1 as [a1|e t]; [|exfalso; apply (Hno e t); cbn; auto].
  destruct p2 as [a2|e t]; [|exfalso; apply (Hno e t); cbn; auto].
  destruct p3 as [a3|e t]; [|exfalso; apply (Hno e t); cbn; auto].
  destruct p4 as [a4|e t]; [|exfalso; apply (Hno e t); cbn; auto].
  exists a1, a2, a3, a4. repeat split. cbn in H. congruence.
Qed.

(** What a dashboard answered with 200 is made of. *)
Lemma get_dashboard_200 rt srv req_query :
  status (get_dashboard rt srv req_query) = 200 ->
  exists rm gp cf ub summary,
    getRealTimeMetrics rt (clickhouse srv) (requested_range req_query) = Fulfilled rm
    /\ getGamePopularity rt (clickhouse srv) (JStr "7 DAY") = Fulfilled gp
    /\ getConversionFunnel rt (clickhouse srv) (JStr "7 DAY") = Fulfilled cf
    /\ getUserBehaviorMetrics rt (clickhouse srv) (JStr "7 DAY") = Fulfilled ub
    /\ dashboard_summary rt rm ub = Ok summary
    /\ get_dashboard rt srv req_query
       = dashboard_view summary rm gp cf ub (requested_range req_query).
Proof.
  unfold get_dashboard. fold (requested_range req_query).
  destruct (clickhouseConnected srv); cbn [negb]; [|discriminate].
  destruct (await_all _) as [vals|e] eqn:Ea; [|discriminate].
  destruct (await_all_four _ _ _ _ _ Ea) as (rm & gp & cf & ub & H1 & H2 & H3 & H4 & ->).
  destruct (dashboard_summary rt rm ub) as [summary|e] eqn:Es; [|discriminate].
  intros _. now exists rm, gp, cf, ub, summary.
Qed.

Lemma dashboard_summary_averages rt rm ub summary :
  dashboard_summary rt rm ub = Ok summary ->
  average rt "avg_session_duration" ub = Ok (prop summary "avg_session_duration")
  /\ average rt "bounce_rate" ub = Ok (prop summary "bounce_rate").
Proof.
  unfold dashboard_summary.
  destruct (reduce_sum rt "page_views" (JNum 0) rm); cbn [bind]; [|discriminate].
  destruct (reduce_sum rt "unique_sessions" (JNum 0) rm); cbn [bind]; [|discriminate].
  destruct (reduce_sum rt "unique_users" (JNum 0) rm); cbn [bind]; [|discriminate].
  destruct (average rt "avg_session_duration" ub); cbn [bind]; [|discriminate].
  destruct (average rt "bounce_rate" ub); cbn [bind]; [|discriminate].
  intros [= <-]. split; reflexivity.
Qed.

(** X16. The requested range reaches the real-time query only. Two
    dashboards answered with 200 by the same server, whatever the two
    ranges, have the same top games, the same conversion funnel, the same
    daily metrics, and the same two averages in their summary. *)
Theorem range_only_moves_realtime (rt : Runtime) (srv : Server)
    (query1 query2 : list (string * JsVal)) :
  status (get_dashboard rt srv query1) = 200 ->
  status (get_dashboard rt srv query2) = 200 ->
  let data1 := prop (body (get_dashboard rt srv query1)) "data" in
  let data2 := prop (body (get_dashboard rt srv query2)) "data" in
  prop data1 "top_games" = prop data2 "top_games"
  /\ prop data1 "conversion_funnel" = prop data2 "conversion_funnel"
  /\ prop data1 "daily_metrics" = prop data2 "daily_metrics"
  /\ prop (prop data1 "summary") "avg_session_duration"
     = prop (prop data2 "summary") "avg_session_duration"
  /\ prop (prop data1 "summary") "bounce_rate" = prop (prop data2 "summary") "bounce_rate".
Proof.
  intros H1 H2.
  destruct (get_dashboard_200 _ _ _ H1) as (rm1 & gp & cf & ub & s1 & _ & Hg & Hc & Hu & Hs1 & ->).
  destruct (get_dashboard_200 _ _ _ H2) as (rm2 & gp' & cf' & ub' & s2 & _ & Hg' & Hc' & Hu' & Hs2 & ->).
  rewrite Hg in Hg'. rewrite Hc in Hc'. rewrite Hu in Hu'.
  injection Hg' as <-. injection Hc' as <-. injection Hu' as <-.
  destruct (dashboard_summary_averages _ _ _ _ Hs1) as [A1 B1].
  destruct (dashboard_summary_averages _ _ _ _ Hs2) as [A2 B2].
  cbn. repeat split; congruence.
Qed.

Lemma range_only_moves_realtime_witness :
  prop (prop (prop (body (get_dashboard sample_runtime quiet_hour_server
                            [("timeRange", JStr "1 HOUR")])) "data") "summary")
       "avg_session_duration"
  = prop (prop (prop (body (get_dashboard sample_runtime quiet_hour_server
                              [("timeRange", JStr "30 DAY")])) "data") "summary")
         "avg_session_duration".
Proof.
  exact (proj1 (proj2 (proj2 (proj2
           (range_only_moves_realtime sample_runtime quiet_hour_server
              [("timeRange", JStr "1 HOUR")] [("timeRange", JStr "30 DAY")]
              eq_refl eq_refl))))).
Defined.
